(** * Risk scoring in the Risk Assessment form (RiskAssessmentFormModal)

    A shallow embedding of the handlers of [RiskAssessmentFormModal]
    (components/LicensingView.tsx) and of the interfaces [RiskItem] and
    [RiskAssessment] (types.ts), together with the properties of the risk
    scoring they implement.

    Strings are the run-time representation of the TypeScript string-literal
    unions ['Low' | 'Medium' | 'High'] and ['Low' | ... | 'Critical']: the
    handlers receive [value: string] and index plain object literals with it,
    so the embedding keeps strings and the fragment of JavaScript's
    semantics the handlers rely on (property lookup, [||], [*], [>=], [>]). *)

From Stdlib Require Import ZArith List String Ascii Bool Lia Permutation.
From Stdlib Require Import Numbers.DecimalString.
Import ListNotations.

Open Scope string_scope.
Open Scope Z_scope.

(** ** The JavaScript fragment used by the handlers *)

Module JS.

(** Values that can come out of indexing an object literal whose own
    properties are integers: the number, [undefined] for an absent key, or
    a member inherited from [Object.prototype] (a function or an object).
    [NaN] only arises from arithmetic. *)
Inductive value : Type :=
| Num (n : Z)
| NaN
| Undefined
| Inherited.

(** ToBoolean *)
Definition truthy (v : value) : bool :=
  match v with
  | Num n => negb (n =? 0)
  | NaN => false
  | Undefined => false
  | Inherited => true
  end.

(** [a || b] *)
Definition or (a b : value) : value := if truthy a then a else b.

(** ToNumber; [None] stands for NaN. *)
Definition toNumber (v : value) : option Z :=
  match v with
  | Num n => Some n
  | NaN | Undefined | Inherited => None
  end.

(** [a * b] *)
Definition mul (a b : value) : value :=
  match toNumber a, toNumber b with
  | Some x, Some y => Num (x * y)
  | _, _ => NaN
  end.

(** [a >= b] and [a > b] when the right operand is a number, which is how
    the handlers use them (a literal, or the rank of a rating): both sides
    go through ToNumber and the comparison is false as soon as one is
    NaN. *)
Definition ge (a b : value) : bool :=
  match toNumber a, toNumber b with
  | Some x, Some y => y <=? x
  | _, _ => false
  end.

Definition gt (a b : value) : bool :=
  match toNumber a, toNumber b with
  | Some x, Some y => y <? x
  | _, _ => false
  end.

(** Property names every object literal inherits from [Object.prototype]. *)
Definition objectPrototypeKeys : list string :=
  [ "constructor"; "hasOwnProperty"; "isPrototypeOf";
    "propertyIsEnumerable"; "toLocaleString"; "toString"; "valueOf";
    "__proto__"; "__defineGetter__"; "__defineSetter__";
    "__lookupGetter__"; "__lookupSetter__" ].

Fixpoint own (props : list (string * Z)) (key : string) : option Z :=
  match props with
  | [] => None
  | (k, n) :: rest => if (k =? key)%string then Some n else own rest key
  end.

(** [obj[key]] for an object literal [obj] with the own properties
    [props]. *)
Definition get (props : list (string * Z)) (key : string) : value :=
  match own props key with
  | Some n => Num n
  | None =>
      if existsb (String.eqb key) objectPrototypeKeys
      then Inherited else Undefined
  end.

(** [s || d] on strings: the empty string is the only falsy one. *)
Definition strOr (s d : string) : string :=
  if (s =? "")%string then d else s.

(** White space removed by [String.prototype.trim], for ASCII text. *)
Definition isWhiteSpace (c : ascii) : bool :=
  let n := nat_of_ascii c in
  ((9 <=? n) && (n <=? 13) || (n =? 32))%nat.

Fixpoint trimStart (s : string) : string :=
  match s with
  | EmptyString => EmptyString
  | String c rest => if isWhiteSpace c then trimStart rest else s
  end.

Fixpoint trimEnd (s : string) : string :=
  match s with
  | EmptyString => EmptyString
  | String c rest =>
      match trimEnd rest with
      | EmptyString => if isWhiteSpace c then EmptyString
                       else String c EmptyString
      | kept => String c kept
      end
  end.

Definition trim (s : string) : string := trimEnd (trimStart s).

(** [s.split(',')]: always at least one piece. *)
Fixpoint split_comma (s : string) : list string :=
  match s with
  | EmptyString => [EmptyString]
  | String c rest =>
      if Ascii.eqb c ","%char then EmptyString :: split_comma rest
      else match split_comma rest with
           | piece :: pieces => String c piece :: pieces
           | [] => [String c EmptyString]
           end
  end.

(** [Boolean] on a string, as used by [.filter(Boolean)]. *)
Definition nonEmpty (s : string) : bool := negb (s =? "")%string.

(** What a handler does: it returns, or a [TypeError] escapes it (reading
    or writing a property of [undefined]). *)
Inductive error : Type := TypeError.

Inductive completion (A : Type) : Type :=
| Return (a : A)
| Throw (e : error).
Arguments Return {A} a.
Arguments Throw {A} e.

End JS.

(** ** types.ts *)

Record RiskItem : Type := mkRiskItem {
  id : string;
  description : string;
  likelihood : string;
  impact : string;
  inherentRisk : string;
  mitigationControls : list string;
  residualRisk : string
}.

Record RiskAssessment : Type := mkRiskAssessment {
  ra_id : string;
  assessmentDate : string;
  assessedBy : string;
  scope : string;
  identifiedRisks : list RiskItem;
  overallRiskRating : string;
  mitigationPlan : string;
  status : string;
  reviewDate : string
}.

(** The union ['Low' | 'Medium' | 'High'] of [likelihood] and [impact]. *)
Inductive Ordinal : Type := OLow | OMedium | OHigh.

(** The union ['Low' | 'Medium' | 'High' | 'Critical'] of [inherentRisk],
    [residualRisk] and [overallRiskRating]. *)
Inductive Rating : Type := Low | Medium | High | Critical.

Definition ordinalStr (o : Ordinal) : string :=
  match o with
  | OLow => "Low"
  | OMedium => "Medium"
  | OHigh => "High"
  end.

Definition ratingStr (r : Rating) : string :=
  match r with
  | Low => "Low"
  | Medium => "Medium"
  | High => "High"
  | Critical => "Critical"
  end.

Definition isOrdinal (s : string) : bool :=
  existsb (String.eqb s) (map ordinalStr [OLow; OMedium; OHigh]).

Definition isRating (s : string) : bool :=
  existsb (String.eqb s) (map ratingStr [Low; Medium; High; Critical]).

(** The six string-valued keys of [RiskItem].  [mitigationControls], the
    array-valued one, is edited by [handleMitigationControlsChange]. *)
Inductive Field : Type :=
| FId | FDescription | FLikelihood | FImpact | FInherentRisk | FResidualRisk.

(** [(risk as any)[field] = value] *)
Definition assign (risk : RiskItem) (field : Field) (value : string)
  : RiskItem :=
  match field with
  | FId =>
      mkRiskItem value (description risk) (likelihood risk) (impact risk)
        (inherentRisk risk) (mitigationControls risk) (residualRisk risk)
  | FDescription =>
      mkRiskItem (id risk) value (likelihood risk) (impact risk)
        (inherentRisk risk) (mitigationControls risk) (residualRisk risk)
  | FLikelihood =>
      mkRiskItem (id risk) (description risk) value (impact risk)
        (inherentRisk risk) (mitigationControls risk) (residualRisk risk)
  | FImpact =>
      mkRiskItem (id risk) (description risk) (likelihood risk) value
        (inherentRisk risk) (mitigationControls risk) (residualRisk risk)
  | FInherentRisk =>
      mkRiskItem (id risk) (description risk) (likelihood risk) (impact risk)
        value (mitigationControls risk) (residualRisk risk)
  | FResidualRisk =>
      mkRiskItem (id risk) (description risk) (likelihood risk) (impact risk)
        (inherentRisk risk) (mitigationControls risk) value
  end.

Definition setDerived (risk : RiskItem) (inherent residual : string)
  : RiskItem :=
  mkRiskItem (id risk) (description risk) (likelihood risk) (impact risk)
    inherent (mitigationControls risk) residual.

Definition setMitigationControls (risk : RiskItem) (controls : list string)
  : RiskItem :=
  mkRiskItem (id risk) (description risk) (likelihood risk) (impact risk)
    (inherentRisk risk) controls (residualRisk risk).

Definition setIdentifiedRisks (a : RiskAssessment) (risks : list RiskItem)
  : RiskAssessment :=
  mkRiskAssessment (ra_id a) (assessmentDate a) (assessedBy a) (scope a)
    risks (overallRiskRating a) (mitigationPlan a) (status a) (reviewDate a).

Definition setOverallRiskRating (a : RiskAssessment) (rating : string)
  : RiskAssessment :=
  mkRiskAssessment (ra_id a) (assessmentDate a) (assessedBy a) (scope a)
    (identifiedRisks a) rating (mitigationPlan a) (status a) (reviewDate a).

(** Writing slot [index] of an array that has one. *)
Fixpoint setAt {A : Type} (l : list A) (index : nat) (x : A) : list A :=
  match l, index with
  | [], _ => []
  | _ :: rest, O => x :: rest
  | y :: rest, S k => y :: setAt rest k x
  end.

(** ** The handlers of RiskAssessmentFormModal *)

Import JS.

(** [generateId = () => `_${nextId++}_${Date.now()}`]: the identifier and
    the incremented module counter; [now] is the clock reading. *)
Definition decimal (n : N) : string := NilEmpty.string_of_uint (N.to_uint n).

Definition generateId (nextId now : N) : string * N :=
  ("_" ++ decimal nextId ++ "_" ++ decimal now, N.succ nextId).

Definition likelihoodOrder : list (string * Z) :=
  [("Low", 1); ("Medium", 2); ("High", 3)].

Definition impactOrder : list (string * Z) :=
  [("Low", 1); ("Medium", 2); ("High", 3)].

Definition riskOrder : list (string * Z) :=
  [("Low", 1); ("Medium", 2); ("High", 3); ("Critical", 4)].

(** Lines 898-899: the product of the two looked-up ranks. *)
Definition inherentScore (likelihood impact : string) : value :=
  JS.mul (JS.or (get likelihoodOrder (strOr likelihood "Low")) (Num 0))
         (JS.or (get impactOrder (strOr impact "Low")) (Num 0)).

(** Line 900: the bucket of a score. *)
Definition inherentRiskOf (score : value) : string :=
  if ge score (Num 6) then "Critical"
  else if ge score (Num 4) then "High"
  else if ge score (Num 2) then "Medium"
  else "Low".

(** Line 902: one level down when controls are present. *)
Definition residualRiskOf (hasMitigation : bool) (inherent : string)
  : string :=
  if hasMitigation && negb (inherent =? "Low")%string
  then (if (inherent =? "Critical")%string then "High"
        else if (inherent =? "High")%string then "Medium"
        else "Low")
  else inherent.

(** The scoring of one item, lines 895-902, as a function of what it reads:
    [likelihood], [impact] and whether [mitigationControls] is non-empty. *)
Definition scoreItem (likelihood impact : string) (hasMitigation : bool)
  : string * string :=
  let inherent := inherentRiskOf (inherentScore likelihood impact) in
  (inherent, residualRiskOf hasMitigation inherent).

(** [risk.mitigationControls && risk.mitigationControls.length > 0]; an
    array is always truthy. *)
Definition hasMitigation (risk : RiskItem) : bool :=
  (0 <? List.length (mitigationControls risk))%nat.

Definition recalculates (field : Field) : bool :=
  match field with
  | FLikelihood | FImpact => true
  | _ => false
  end.

(** Lines 894-903 on the item just written. *)
Definition recalculate (risk : RiskItem) : RiskItem :=
  let derived := scoreItem (likelihood risk) (impact risk)
                   (hasMitigation risk) in
  setDerived risk (fst derived) (snd derived).

(** Lines 889-906.  The item is updated in place and the list that holds it
    becomes the new [identifiedRisks]; when [updatedRisks[index]] is
    [undefined] the assignment on line 892 throws.  The handler runs on the
    rendered state: [formState] and the [prev] of the updater are the
    same. *)
Definition handleRiskItemChange (index : nat) (field : Field)
  (value : string) (formState : RiskAssessment)
  : completion RiskAssessment :=
  match nth_error (identifiedRisks formState) index with
  | None => Throw TypeError
  | Some risk =>
      let risk := assign risk field value in
      let risk := if recalculates field then recalculate risk else risk in
      Return (setIdentifiedRisks formState
                (setAt (identifiedRisks formState) index risk))
  end.

(** Lines 908-921; also returns the counter [generateId] advanced. *)
Definition handleAddRiskItem (nextId now : N) (prev : RiskAssessment)
  : RiskAssessment * N :=
  let generated := generateId nextId now in
  (setIdentifiedRisks prev
     (identifiedRisks prev ++
        [ {| id := fst generated;
             description := "";
             likelihood := "Low";
             impact := "Low";
             inherentRisk := "Low";
             mitigationControls := [];
             residualRisk := "Low" |} ]),
   snd generated).

(** Lines 923-928. *)
Definition handleRemoveRiskItem (removed : string) (prev : RiskAssessment)
  : RiskAssessment :=
  setIdentifiedRisks prev
    (filter (fun item => negb (id item =? removed)%string)
       (identifiedRisks prev)).

(** Lines 930-934. *)
Definition handleMitigationControlsChange (index : nat) (value : string)
  (formState : RiskAssessment) : completion RiskAssessment :=
  match nth_error (identifiedRisks formState) index with
  | None => Throw TypeError
  | Some risk =>
      let controls := filter nonEmpty (map trim (split_comma value)) in
      Return (setIdentifiedRisks formState
                (setAt (identifiedRisks formState) index
                   (setMitigationControls risk controls)))
  end.

(** Lines 943-946: the callback of the reduce over [identifiedRisks], and
    the reduce itself, from ['Low']. *)
Definition maxRiskStep (max : string) (risk : RiskItem) : string :=
  if gt (get riskOrder (residualRisk risk)) (get riskOrder max)
  then residualRisk risk else max.

Definition scoreAssessment (items : list RiskItem) : string :=
  fold_left maxRiskStep items "Low".

(** What [handleSubmit] calls on the component's props. *)
Inductive Effect : Type :=
| ShowNotification (message kind : string)
| OnSubmit (assessment : RiskAssessment).

(** Lines 936-948: the form state after the handler (it never calls
    [setFormState]) and the calls it made on the props.
    [e.preventDefault()] only concerns the DOM event and is left out. *)
Definition handleSubmit (formState : RiskAssessment)
  : RiskAssessment * list Effect :=
  if (negb (nonEmpty (scope formState))
      || (List.length (identifiedRisks formState) =? 0)%nat)%bool
  then
    (formState,
     [ShowNotification
        "Please define the scope and at least one risk item for the assessment."
        "error"])
  else
    let maxRisk := scoreAssessment (identifiedRisks formState) in
    (formState, [OnSubmit (setOverallRiskRating formState maxRisk)]).

(** ** The specification's vocabulary *)

(** Rank of an ordinal, as the specification words it: Low 1, Medium 2,
    High 3. *)
Definition spec_rank (o : Ordinal) : Z :=
  match o with
  | OLow => 1
  | OMedium => 2
  | OHigh => 3
  end.

(** The specification's step function over scores. *)
Definition spec_bucket (score : Z) : Rating :=
  if 6 <=? score then Critical
  else if 4 <=? score then High
  else if 2 <=? score then Medium
  else Low.

(** The specification's demotion: one level down, Low stays Low. *)
Definition spec_demote (r : Rating) : Rating :=
  match r with
  | Critical => High
  | High => Medium
  | Medium => Low
  | Low => Low
  end.

(** The ordinal order Low < Medium < High < Critical. *)
Definition ratingRank (r : Rating) : Z :=
  match r with
  | Low => 1
  | Medium => 2
  | High => 3
  | Critical => 4
  end.

(** The derived fields of an item agree with what [scoreItem] computes from
    its current inputs. *)
Definition derivedConsistent (risk : RiskItem) : bool :=
  let derived := scoreItem (likelihood risk) (impact risk)
                   (hasMitigation risk) in
  ((inherentRisk risk =? fst derived) && (residualRisk risk =? snd derived))%string.

(** [a] is at most [b] in the order Low < Medium < High < Critical. *)
Definition ratingLe (a b : string) : Prop :=
  exists ra rb : Rating,
    a = ratingStr ra /\ b = ratingStr rb /\ ratingRank ra <= ratingRank rb.

(** Reading a rating back from its string. *)
Definition parseRating (s : string) : option Rating :=
  if (s =? "Low")%string then Some Low
  else if (s =? "Medium")%string then Some Medium
  else if (s =? "High")%string then Some High
  else if (s =? "Critical")%string then Some Critical
  else None.

(** The larger of a rating and whatever rating a string denotes. *)
Definition joinRating (a : Rating) (s : string) : Rating :=
  match parseRating s with
  | Some b => if ratingRank a <? ratingRank b then b else a
  | None => a
  end.

(** ** Fixtures *)

(** A risk item with the given inputs and derived fields. *)
Definition exampleItem (l i : string) (controls : list string)
  (inh res : string) : RiskItem :=
  {| id := "_1000_0"; description := ""; likelihood := l; impact := i;
     inherentRisk := inh; mitigationControls := controls;
     residualRisk := res |}.

(** The form state of a new assessment (lines 874-878), with a scope and a
    list of risks filled in. *)
Definition exampleAssessment (sc : string) (risks : list RiskItem)
  : RiskAssessment :=
  {| ra_id := ""; assessmentDate := ""; assessedBy := "Current User";
     scope := sc; identifiedRisks := risks; overallRiskRating := "Low";
     mitigationPlan := ""; status := "Pending"; reviewDate := "" |}.

From Stdlib Require DecimalN.

(** ** The mitigation controls as text *)

(** [parts.join(sep)] *)
Fixpoint join (sep : string) (parts : list string) : string :=
  match parts with
  | [] => ""
  | [part] => part
  | part :: rest => part ++ sep ++ join sep rest
  end.

(** Line 1022: what the textarea of an item shows,
    [item.mitigationControls.join(', ')]. *)
Definition mitigationControlsText (risk : RiskItem) : string :=
  join ", " (mitigationControls risk).

Fixpoint noComma (s : string) : bool :=
  match s with
  | EmptyString => true
  | String c rest => negb (Ascii.eqb c ","%char) && noComma rest
  end.

(** A control name as the form stores it: not empty, no comma, no white
    space at either end. *)
Definition controlName (c : string) : Prop :=
  c <> "" /\ noComma c = true /\ trim c = c.

(** ** Identifiers *)

Fixpoint noUnderscore (s : string) : bool :=
  match s with
  | EmptyString => true
  | String c rest => negb (Ascii.eqb c "_"%char) && noUnderscore rest
  end.

(** ** The larger of two ratings *)

Definition ratingMax (a b : Rating) : Rating :=
  if ratingRank a <? ratingRank b then b else a.


(** ** types.ts: licences *)

Record LicenseDocument : Type := mkLicenseDocument {
  doc_id : string;
  doc_name : string;
  doc_url : string;
  doc_type : string;
  uploadedBy : string;
  uploadDate : string;
  doc_version : string
}.

Record LicenseAuditEntry : Type := mkLicenseAuditEntry {
  audit_id : string;
  timestamp : string;
  action : string;
  changerId : string;
  details : string
}.

(** The two [number] fields are only copied by the handlers below. *)
Record License : Type := mkLicense {
  lic_id : string;
  lic_name : string;
  jurisdiction : string;
  lic_status : string;
  expiryDate : string;
  issueDate : string;
  regulatoryBody : string;
  licenseNumber : string;
  lic_scope : string;
  renewalFrequencyMonths : Z;
  documents : list LicenseDocument;
  auditTrail : list LicenseAuditEntry;
  associatedPolicies : list string;
  notes : string;
  contactPerson : string;
  contactEmail : string;
  renewalCostUSD : Z;
  lastRenewalDate : string;
  nextRenewalReminderDate : string;
  jurisdictionId : string
}.

(** ** LicensingView: the state its licence and risk-assessment handlers
    write, with the module counter [nextId] of [generateId] *)

Record ViewState : Type := mkViewState {
  nextId : N;
  allLicenses : list License;
  allRiskAssessments : list RiskAssessment;
  notification : option (string * string);
  isLoading : bool;
  isLicenseModalOpen : bool;
  editingLicense : option License;
  isRiskAssessmentModalOpen : bool;
  editingRiskAssessment : option RiskAssessment;
  isViewRiskAssessmentModalOpen : bool
}.

(** Lines 1400-1413.  [now] is what [Date.now()] reads inside [generateId],
    [nowIso] is [new Date().toISOString()]; neither is read when an
    existing assessment is edited. *)
Definition handleAddEditRiskAssessment (assessmentData : RiskAssessment)
  (now : N) (nowIso : string) (v : ViewState) : ViewState :=
  if nonEmpty (ra_id assessmentData) then
    {| nextId := nextId v;
       allLicenses := allLicenses v;
       allRiskAssessments :=
         map (fun ra => if (ra_id ra =? ra_id assessmentData)%string
                        then assessmentData else ra)
           (allRiskAssessments v);
       notification :=
         Some ("Risk assessment updated successfully!", "success");
       isLoading := false;
       isLicenseModalOpen := isLicenseModalOpen v;
       editingLicense := editingLicense v;
       isRiskAssessmentModalOpen := false;
       editingRiskAssessment := None;
       isViewRiskAssessmentModalOpen := isViewRiskAssessmentModalOpen v |}
  else
    let generated := generateId (nextId v) now in
    let newAssessment :=
      {| ra_id := "RA-" ++ fst generated;
         assessmentDate := nowIso;
         assessedBy := "Current User";
         scope := scope assessmentData;
         identifiedRisks := identifiedRisks assessmentData;
         overallRiskRating := overallRiskRating assessmentData;
         mitigationPlan := mitigationPlan assessmentData;
         status := status assessmentData;
         reviewDate := reviewDate assessmentData |} in
    {| nextId := snd generated;
       allLicenses := allLicenses v;
       allRiskAssessments := newAssessment :: allRiskAssessments v;
       notification :=
         Some ("Risk assessment created successfully!", "success");
       isLoading := false;
       isLicenseModalOpen := isLicenseModalOpen v;
       editingLicense := editingLicense v;
       isRiskAssessmentModalOpen := false;
       editingRiskAssessment := None;
       isViewRiskAssessmentModalOpen := isViewRiskAssessmentModalOpen v |}.

(** Lines 1334-1339. *)
Definition handleDeleteLicense (licenseId : string) (v : ViewState)
  : ViewState :=
  {| nextId := nextId v;
     allLicenses :=
       filter (fun lic => negb (lic_id lic =? licenseId)%string)
         (allLicenses v);
     allRiskAssessments := allRiskAssessments v;
     notification := Some ("License deleted successfully!", "success");
     isLoading := false;
     isLicenseModalOpen := isLicenseModalOpen v;
     editingLicense := editingLicense v;
     isRiskAssessmentModalOpen := isRiskAssessmentModalOpen v;
     editingRiskAssessment := editingRiskAssessment v;
     isViewRiskAssessmentModalOpen := isViewRiskAssessmentModalOpen v |}.


(** Lines 1057-1062 of RiskAssessmentDetailsModal, with the props it is
    given on lines 2023-2029: [onDelete] is [handleDeleteLicense] and
    [onClose] closes the details modal.  [confirmed] is the answer of
    [window.confirm]. *)
Definition handleDeleteClick (assessment : RiskAssessment)
  (confirmed : bool) (v : ViewState) : ViewState :=
  if confirmed then
    let v := handleDeleteLicense (ra_id assessment) v in
    {| nextId := nextId v;
       allLicenses := allLicenses v;
       allRiskAssessments := allRiskAssessments v;
       notification := notification v;
       isLoading := isLoading v;
       isLicenseModalOpen := isLicenseModalOpen v;
       editingLicense := editingLicense v;
       isRiskAssessmentModalOpen := isRiskAssessmentModalOpen v;
       editingRiskAssessment := editingRiskAssessment v;
       isViewRiskAssessmentModalOpen := false |}
  else v.



Definition emptyView : ViewState :=
  {| nextId := 1000; allLicenses := []; allRiskAssessments := [];
     notification := None; isLoading := false;
     isLicenseModalOpen := false; editingLicense := None;
     isRiskAssessmentModalOpen := false; editingRiskAssessment := None;
     isViewRiskAssessmentModalOpen := false |}.

(** ** Risk items as shared objects

    [useState(assessment)] and [setFormState(assessment)] (lines 865-872)
    start the form from the assessment object itself, and line 890 copies
    the array of items, not the items.  Here the items live in a store,
    arrays hold addresses into it, and the two handlers below are the
    handlers above with that sharing made explicit. *)

(** What an array of addresses shows. *)
Definition shown (store : list RiskItem) (array : list nat)
  : list (option RiskItem) :=
  map (nth_error store) array.

(** Lines 889-906 on the store: the object at [updatedRisks[index]] is
    written in place; the new array holds the same addresses.  An address
    held by an array always names an object, so the inner [None] does not
    arise for arrays that show items. *)
Definition handleRiskItemChange_shared (index : nat) (field : Field)
  (value : string) (store : list RiskItem) (formRisks : list nat)
  : completion (list RiskItem * list nat) :=
  match nth_error formRisks index with
  | None => Throw TypeError
  | Some address =>
      match nth_error store address with
      | None => Throw TypeError
      | Some risk =>
          let risk := assign risk field value in
          let risk := if recalculates field then recalculate risk else risk in
          Return (setAt store address risk, formRisks)
      end
  end.

(** Lines 908-921 on the store: a new object, and a new array that ends
    with its address. *)
Definition handleAddRiskItem_shared (nextId now : N)
  (store : list RiskItem) (formRisks : list nat)
  : list RiskItem * list nat * N :=
  let generated := generateId nextId now in
  ((store ++
      [ {| id := fst generated;
           description := "";
           likelihood := "Low";
           impact := "Low";
           inherentRisk := "Low";
           mitigationControls := [];
           residualRisk := "Low" |} ])%list,
   (formRisks ++ [List.length store])%list,
   snd generated).

(** ** Utilities of LicensingView *)

(** [text.substring(0, finish)] for an integer [finish]: a negative
    [finish] counts as 0, one past the end as the length. *)
Definition substring0 (text : string) (finish : Z) : string :=
  String.substring 0 (Z.to_nat finish) text.

(** Lines 146-148, for an integer [length] (the callers pass 50, 60 and
    80). *)
Definition truncateText (text : string) (length : Z) : string :=
  if length <? Z.of_nat (String.length text)
  then substring0 text length ++ "..."
  else text.

(** [array.slice(start, finish)] for integer arguments: a negative index
    counts from the end, and both are clamped to the array. *)
Definition slice {A : Type} (l : list A) (start finish : Z) : list A :=
  let len := Z.of_nat (List.length l) in
  let clamp i := if i <? 0 then Z.max (len + i) 0 else Z.min i len in
  let from := clamp start in
  let count := Z.max (clamp finish - from) 0 in
  firstn (Z.to_nat count) (skipn (Z.to_nat from) l).

(** Lines 1447-1451 (and 1481-1485, 1518-1522): the rows of the current
    page. *)
Definition currentPageItems {A : Type} (filteredAndSorted : list A)
  (currentPage perPage : Z) : list A :=
  let indexOfLast := currentPage * perPage in
  let indexOfFirst := indexOfLast - perPage in
  slice filteredAndSorted indexOfFirst indexOfLast.

(** Line 1453 (and 1487, 1524): [Math.ceil(length / perPage)], for a
    positive [perPage] (the component fixes it to 10). *)
Definition totalPages {A : Type} (filteredAndSorted : list A) (perPage : Z)
  : Z :=
  (Z.of_nat (List.length filteredAndSorted) + perPage - 1) / perPage.

(** The page numbers 1 .. [n]. *)
Definition pageNumbers (n : Z) : list Z :=
  map (fun i => Z.of_nat i + 1) (seq 0 (Z.to_nat n)).

(** Lines 503-509 of PolicyFormModal: the updater given to
    [setSelectedJurisdictions]. *)
Definition handleJurisdictionToggle (jurisdictionId : string)
  (prev : list string) : list string :=
  if existsb (String.eqb jurisdictionId) prev
  then filter (fun id => negb (id =? jurisdictionId)%string) prev
  else (prev ++ [jurisdictionId])%list.

(** ** types.ts: policies, and the submit handler of PolicyFormModal *)

Record PolicyDocument : Type := mkPolicyDocument {
  pdoc_id : string;
  pdoc_name : string;
  pdoc_url : string;
  pdoc_type : string;
  pdoc_uploadedBy : string;
  pdoc_uploadDate : string
}.

Record CompliancePolicy : Type := mkCompliancePolicy {
  pol_id : string;
  pol_name : string;
  pol_description : string;
  category : string;
  pol_version : string;
  effectiveDate : string;
  pol_reviewDate : string;
  pol_documents : list PolicyDocument;
  applicableJurisdictions : list string;
  responsibleDepartment : string;
  pol_status : string;
  lastUpdatedBy : string;
  lastUpdateDate : string;
  relatedLicenses : list string
}.

Inductive PolicyEffect : Type :=
| PolicyShowNotification (message kind : string)
| PolicyOnSubmit (policy : CompliancePolicy).

(** Lines 511-518: the calls the handler makes on its props, given the
    form state and the selection kept by [handleJurisdictionToggle]. *)
Definition policyHandleSubmit (formState : CompliancePolicy)
  (selectedJurisdictions : list string) : list PolicyEffect :=
  if (negb (nonEmpty (pol_name formState))
      || negb (nonEmpty (pol_description formState))
      || negb (nonEmpty (category formState))
      || (List.length selectedJurisdictions =? 0)%nat)%bool
  then
    [PolicyShowNotification
       "Please fill in all required policy fields and select at least one jurisdiction."
       "error"]
  else
    [PolicyOnSubmit
       {| pol_id := pol_id formState;
          pol_name := pol_name formState;
          pol_description := pol_description formState;
          category := category formState;
          pol_version := pol_version formState;
          effectiveDate := effectiveDate formState;
          pol_reviewDate := pol_reviewDate formState;
          pol_documents := pol_documents formState;
          applicableJurisdictions := selectedJurisdictions;
          responsibleDepartment := responsibleDepartment formState;
          pol_status := pol_status formState;
          lastUpdatedBy := lastUpdatedBy formState;
          lastUpdateDate := lastUpdateDate formState;
          relatedLicenses := relatedLicenses formState |}].

(** ** utils/dateUtils.ts: format *)

(** What [format] reads of a valid [Date]: its fields in local time. *)
Record DateFields : Type := mkDateFields {
  getFullYear : Z;
  getMonth : Z;
  getDate : Z;
  getHours : Z;
  getMinutes : Z
}.

(** [n.toString()] for an integer. *)
Definition numberToString (n : Z) : string :=
  if n <? 0 then "-" ++ decimal (Z.to_N (- n)) else decimal (Z.to_N n).

Fixpoint zeros (n : nat) : string :=
  match n with
  | O => EmptyString
  | S k => String "0" (zeros k)
  end.

(** [s.padStart(targetLength, '0')] *)
Definition padStart0 (s : string) (targetLength : nat) : string :=
  zeros (targetLength - String.length s) ++ s.

Definition monthsShort : list string :=
  ["Jan"; "Feb"; "Mar"; "Apr"; "May"; "Jun";
   "Jul"; "Aug"; "Sep"; "Oct"; "Nov"; "Dec"].

(** [`${monthsShort[i]}`]: an index with no entry prints as undefined. *)
Definition monthShort (i : Z) : string :=
  if i <? 0 then "undefined"
  else match nth_error monthsShort (Z.to_nat i) with
       | Some m => m
       | None => "undefined"
       end.

(** Lines 26-52.  [None] is a date whose time is NaN; [localeDateString]
    is what [date.toLocaleDateString()] would return. *)
Definition format (date : option DateFields) (formatStr : string)
  (localeDateString : string) : string :=
  match date with
  | None => "Invalid Date"
  | Some date =>
      let d := getDate date in
      let m := monthShort (getMonth date) in
      let y := getFullYear date in
      let H := padStart0 (numberToString (getHours date)) 2 in
      let M := padStart0 (numberToString (getMinutes date)) 2 in
      let monthNum := padStart0 (numberToString (getMonth date + 1)) 2 in
      let dayNum := padStart0 (numberToString d) 2 in
      if (formatStr =? "yyyy-MM-dd")%string then
        numberToString y ++ "-" ++ monthNum ++ "-" ++ dayNum
      else if (formatStr =? "MMM d, yyyy")%string then
        m ++ " " ++ numberToString d ++ ", " ++ numberToString y
      else if (formatStr =? "MMM d, yyyy HH:mm")%string then
        m ++ " " ++ numberToString d ++ ", " ++ numberToString y
          ++ " " ++ H ++ ":" ++ M
      else if (formatStr =? "MMM yyyy")%string then
        m ++ " " ++ numberToString y
      else localeDateString
  end.

(** Reading a run of decimal digits back as a number. *)
Definition readDecimal (s : string) : option Z :=
  option_map (fun d => Z.of_N (N.of_uint d)) (NilEmpty.uint_of_string s).

(** The shape [<input type="date">] takes as its value: four digits, two
    digits, two digits, separated by hyphens, read back as numbers. *)
Definition readIsoDate (s : string) : option (Z * Z * Z) :=
  match readDecimal (String.substring 0 4 s),
        readDecimal (String.substring 5 2 s),
        readDecimal (String.substring 8 2 s) with
  | Some y, Some m, Some d =>
      if ((String.length s =? 10)%nat
          && (String.substring 4 1 s =? "-")%string
          && (String.substring 7 1 s =? "-")%string)%bool
      then Some (y, m, d) else None
  | _, _, _ => None
  end.

(** * Properties *)

(** Settles [ratingLe a b] between two closed strings by reading both
    ratings back and comparing their ranks. *)
Ltac rating_le :=
  lazymatch goal with
  | |- ratingLe ?a ?b =>
      let pa := eval vm_compute in (parseRating a) in
      let pb := eval vm_compute in (parseRating b) in
      lazymatch pa with
      | Some ?ra =>
          lazymatch pb with
          | Some ?rb =>
              exists ra, rb;
              split; [reflexivity | split; [reflexivity | cbn; lia]]
          end
      end
  end.

(** ** Scoring one item *)

Lemma inherentRiskOf_bucket (s : Z) :
  inherentRiskOf (Num s) = ratingStr (spec_bucket s).
Proof.
  unfold inherentRiskOf, spec_bucket, ge; simpl.
  destruct (6 <=? s); [reflexivity|].
  destruct (4 <=? s); [reflexivity|].
  destruct (2 <=? s); reflexivity.
Qed.

Lemma inherentScore_ordinals (l i : Ordinal) :
  inherentScore (ordinalStr l) (ordinalStr i)
  = Num (spec_rank l * spec_rank i).
Proof. destruct l, i; reflexivity. Qed.

(** C1. For likelihood and impact among Low, Medium, High the score is the
    product of the ranks 1, 2, 3; the inherent risk is the bucket of that
    score (at least 6 Critical, at least 4 High, at least 2 Medium, else
    Low), which is the nine-entry table; 4 is High and 6 is Critical. *)
Theorem scoreItem_inherent_table (l i : Ordinal) (m : bool) :
  inherentScore (ordinalStr l) (ordinalStr i)
    = Num (spec_rank l * spec_rank i)
  /\ (forall s : Z, inherentRiskOf (Num s) = ratingStr (spec_bucket s))
  /\ fst (scoreItem (ordinalStr l) (ordinalStr i) m)
     = ratingStr (spec_bucket (spec_rank l * spec_rank i))
  /\ fst (scoreItem (ordinalStr l) (ordinalStr i) m)
     = ratingStr match l, i with
                 | OLow, OLow => Low
                 | OLow, OMedium => Medium
                 | OLow, OHigh => Medium
                 | OMedium, OLow => Medium
                 | OMedium, OMedium => High
                 | OMedium, OHigh => Critical
                 | OHigh, OLow => Medium
                 | OHigh, OMedium => Critical
                 | OHigh, OHigh => Critical
                 end
  /\ inherentRiskOf (Num 4) = "High"
  /\ inherentRiskOf (Num 6) = "Critical".
Proof.
  split; [apply inherentScore_ordinals|].
  split; [exact inherentRiskOf_bucket|].
  split.
  - unfold scoreItem; cbn [fst].
    rewrite inherentScore_ordinals. apply inherentRiskOf_bucket.
  - split; [destruct l, i; reflexivity|].
    split; reflexivity.
Qed.

(** C2. With mitigation the residual risk is one level below the inherent
    risk (Critical to High, High to Medium, Medium to Low, Low stays Low);
    without mitigation it is the inherent risk. *)
Theorem scoreItem_residual (l i : Ordinal) (m : bool) :
  let inherent := spec_bucket (spec_rank l * spec_rank i) in
  scoreItem (ordinalStr l) (ordinalStr i) m
  = (ratingStr inherent,
     ratingStr (if m then spec_demote inherent else inherent)).
Proof. destruct l, i, m; reflexivity. Qed.

(** C6. Raising likelihood one step with impact fixed, or impact one step
    with likelihood fixed, never lowers the inherent risk. *)
Theorem scoreItem_inherent_monotone (x : Ordinal) (m : bool) :
  let inherent l i := fst (scoreItem (ordinalStr l) (ordinalStr i) m) in
  ratingLe (inherent OLow x) (inherent OMedium x)
  /\ ratingLe (inherent OMedium x) (inherent OHigh x)
  /\ ratingLe (inherent x OLow) (inherent x OMedium)
  /\ ratingLe (inherent x OMedium) (inherent x OHigh).
Proof.
  cbv zeta. destruct x; repeat split; rating_le.
Qed.

(** ** Unrecognised likelihood or impact *)

Lemma strOr_idempotent (s d : string) : strOr (strOr s d) d = strOr s d.
Proof.
  unfold strOr. destruct (String.eqb_spec s "") as [->|N].
  - destruct (d =? "")%string; reflexivity.
  - apply String.eqb_neq in N. now rewrite N.
Qed.

(** What [order[key] || 0] can be: the rank of a recognised ordinal, 0 for
    an absent key, or an inherited member of [Object.prototype]. *)
Lemma rank_lookup_cases (s : string) :
  (exists o, s = ordinalStr o /\ isOrdinal s = true
             /\ JS.or (get likelihoodOrder s) (Num 0) = Num (spec_rank o))
  \/ (isOrdinal s = false
      /\ (JS.or (get likelihoodOrder s) (Num 0) = Num 0
          \/ JS.or (get likelihoodOrder s) (Num 0) = Inherited)).
Proof.
  destruct (String.eqb_spec s "Low") as [->|HL];
    [left; exists OLow; repeat split|].
  destruct (String.eqb_spec s "Medium") as [->|HM];
    [left; exists OMedium; repeat split|].
  destruct (String.eqb_spec s "High") as [->|HH];
    [left; exists OHigh; repeat split|].
  right. split.
  - unfold isOrdinal; simpl.
    apply String.eqb_neq in HL, HM, HH. now rewrite HL, HM, HH.
  - unfold get, likelihoodOrder, own.
    assert (EL : ("Low" =? s)%string = false) by (apply String.eqb_neq; congruence).
    assert (EM : ("Medium" =? s)%string = false) by (apply String.eqb_neq; congruence).
    assert (EH : ("High" =? s)%string = false) by (apply String.eqb_neq; congruence).
    rewrite EL, EM, EH.
    destruct (existsb (String.eqb s) objectPrototypeKeys); [right|left]; reflexivity.
Qed.

Lemma inherentRiskOf_unrecognised (a b : value) :
  a = Num 0 \/ a = Inherited ->
  (exists n, b = Num n) \/ b = Inherited ->
  inherentRiskOf (JS.mul a b) = "Low" /\ inherentRiskOf (JS.mul b a) = "Low".
Proof.
  intros [-> | ->] [[n ->] | ->]; split; try reflexivity.
  unfold JS.mul; simpl. now rewrite Z.mul_0_r.
Qed.

(** C4, as the code has it. An input whose likelihood or impact is not one
    of Low, Medium, High still gets a rating: an empty value is read as Low,
    and if a value is still unrecognised after that, the inherent and the
    residual risk are both Low. *)
Theorem scoreItem_unrecognised (l i : string) (m : bool) :
  isOrdinal l = false \/ isOrdinal i = false ->
  scoreItem l i m =
    if isOrdinal (strOr l "Low") && isOrdinal (strOr i "Low")
    then scoreItem (strOr l "Low") (strOr i "Low") m
    else ("Low", "Low").
Proof.
  intros _.
  destruct (isOrdinal (strOr l "Low") && isOrdinal (strOr i "Low")) eqn:E.
  - unfold scoreItem, inherentScore. now rewrite !strOr_idempotent.
  - assert (L : inherentRiskOf (inherentScore l i) = "Low").
    { unfold inherentScore. change impactOrder with likelihoodOrder.
      destruct (rank_lookup_cases (strOr l "Low")) as [(ol & _ & Vl & Rl) | (Vl & Rl)];
      destruct (rank_lookup_cases (strOr i "Low")) as [(oi & _ & Vi & Ri) | (Vi & Ri)].
      - rewrite Vl, Vi in E. discriminate.
      - rewrite Rl.
        apply (inherentRiskOf_unrecognised _ (Num (spec_rank ol))); eauto.
      - rewrite Ri.
        apply (inherentRiskOf_unrecognised _ (Num (spec_rank oi))); eauto.
      - refine (proj1 (inherentRiskOf_unrecognised _ _ Rl _)).
        destruct Ri as [-> | ->]; eauto. }
    unfold scoreItem. rewrite L. destruct m; reflexivity.
Qed.

Lemma scoreItem_unrecognised_witness :
  scoreItem "Extreme" "" true = ("Low", "Low")
  /\ scoreItem "" "High" false = ("Medium", "Medium").
Proof.
  split.
  - apply (scoreItem_unrecognised "Extreme" "" true). left. reflexivity.
  - apply (scoreItem_unrecognised "" "High" false). left. reflexivity.
Defined.

(** C4, as stated, fails: setting the likelihood of an item to "Extreme"
    returns normally with a rated item, and the scoring of
    ("Extreme", "Low", no mitigation) is a rating, not an error. *)
Lemma invalid_enum_is_rated :
  handleRiskItemChange 0 FLikelihood "Extreme"
    (exampleAssessment "Payments" [exampleItem "Low" "Low" [] "Low" "Low"])
  = Return
      (exampleAssessment "Payments"
         [exampleItem "Extreme" "Low" [] "Low" "Low"])
  /\ scoreItem "Extreme" "Low" false = ("Low", "Low")
  /\ ~ (exists e,
          handleRiskItemChange 0 FLikelihood "Extreme"
            (exampleAssessment "Payments"
               [exampleItem "Low" "Low" [] "Low" "Low"])
          = Throw e).
Proof.
  split; [reflexivity|]. split; [reflexivity|].
  intros [e H]. discriminate H.
Qed.

(** ** The editing handlers *)

Lemma nth_error_setAt_eq {A : Type} (l : list A) (n : nat) (x y : A) :
  nth_error l n = Some y -> nth_error (setAt l n x) n = Some x.
Proof.
  revert n; induction l as [|z l IH]; intros [|n] H; simpl in *;
    try discriminate; auto.
Qed.

Lemma nth_error_setAt_neq {A : Type} (l : list A) (n k : nat) (x : A) :
  n <> k -> nth_error (setAt l n x) k = nth_error l k.
Proof.
  revert n k; induction l as [|z l IH]; intros [|n] [|k] H; simpl;
    try reflexivity; try congruence.
  apply IH. congruence.
Qed.

(** The handlers throw exactly when the index names no item. *)
Lemma handleRiskItemChange_throws (index : nat) (field : Field)
  (value : string) (formState : RiskAssessment) :
  (exists e, handleRiskItemChange index field value formState = Throw e)
  <-> (List.length (identifiedRisks formState) <= index)%nat.
Proof.
  unfold handleRiskItemChange.
  destruct (nth_error (identifiedRisks formState) index) eqn:E.
  - split.
    + intros [e H]; discriminate.
    + intros H. apply nth_error_None in H. congruence.
  - split; [intros _; now apply nth_error_None | eauto].
Qed.

(** After a change of likelihood or impact the derived fields of the item
    are those [scoreItem] computes from its inputs. *)
Lemma handleRiskItemChange_recalculated (index : nat) (field : Field)
  (value : string) (formState formState' : RiskAssessment) (risk : RiskItem) :
  recalculates field = true ->
  handleRiskItemChange index field value formState = Return formState' ->
  nth_error (identifiedRisks formState') index = Some risk ->
  (inherentRisk risk, residualRisk risk)
  = scoreItem (likelihood risk) (impact risk) (hasMitigation risk).
Proof.
  intros R H N. unfold handleRiskItemChange in H.
  destruct (nth_error (identifiedRisks formState) index) as [old|] eqn:E;
    [|discriminate].
  injection H as <-. simpl in N.
  rewrite (nth_error_setAt_eq _ _ _ _ E), R in N. injection N as <-.
  unfold recalculate, setDerived, hasMitigation; simpl.
  symmetry. apply surjective_pairing.
Qed.

(** [handleMitigationControlsChange] writes the controls of the item and
    nothing else: both derived fields keep their old values. *)
Lemma handleMitigationControlsChange_keeps_derived (index : nat)
  (value : string) (formState formState' : RiskAssessment)
  (old : RiskItem) :
  nth_error (identifiedRisks formState) index = Some old ->
  handleMitigationControlsChange index value formState = Return formState' ->
  exists risk,
    nth_error (identifiedRisks formState') index = Some risk
    /\ mitigationControls risk
       = filter nonEmpty (map trim (split_comma value))
    /\ likelihood risk = likelihood old
    /\ impact risk = impact old
    /\ inherentRisk risk = inherentRisk old
    /\ residualRisk risk = residualRisk old.
Proof.
  intros E H. unfold handleMitigationControlsChange in H. rewrite E in H.
  injection H as <-. simpl.
  eexists. split; [eapply nth_error_setAt_eq; eassumption|].
  repeat split.
Qed.

(** C8. The derived pair written by a change of likelihood or impact is a
    function of the item's likelihood, impact and presence of controls
    alone: two such changes, on any two form states, items and fields, that
    leave items agreeing on these three leave them with the same
    (inherentRisk, residualRisk). *)
Theorem scoreItem_deterministic
  (index1 index2 : nat) (field1 field2 : Field) (value1 value2 : string)
  (formState1 formState2 formState1' formState2' : RiskAssessment)
  (risk1 risk2 : RiskItem) :
  recalculates field1 = true ->
  recalculates field2 = true ->
  handleRiskItemChange index1 field1 value1 formState1 = Return formState1' ->
  handleRiskItemChange index2 field2 value2 formState2 = Return formState2' ->
  nth_error (identifiedRisks formState1') index1 = Some risk1 ->
  nth_error (identifiedRisks formState2') index2 = Some risk2 ->
  likelihood risk1 = likelihood risk2 ->
  impact risk1 = impact risk2 ->
  hasMitigation risk1 = hasMitigation risk2 ->
  (inherentRisk risk1, residualRisk risk1)
  = (inherentRisk risk2, residualRisk risk2)
  /\ (inherentRisk risk1, residualRisk risk1)
     = scoreItem (likelihood risk1) (impact risk1) (hasMitigation risk1).
Proof.
  intros R1 R2 H1 H2 N1 N2 EL EI EM.
  pose proof (handleRiskItemChange_recalculated _ _ _ _ _ _ R1 H1 N1) as D1.
  pose proof (handleRiskItemChange_recalculated _ _ _ _ _ _ R2 H2 N2) as D2.
  split; [|exact D1].
  rewrite D1, D2, EL, EI, EM. reflexivity.
Qed.

Lemma scoreItem_deterministic_witness :
  let risk1 :=
    {| id := "_1000_0"; description := "Regulatory fines";
       likelihood := "High"; impact := "High"; inherentRisk := "Critical";
       mitigationControls := ["KYC checks"]; residualRisk := "High" |} in
  let risk2 :=
    {| id := "_1007_5"; description := "Data breach";
       likelihood := "High"; impact := "High"; inherentRisk := "Critical";
       mitigationControls := ["Encryption"; "Staff training"];
       residualRisk := "High" |} in
  (inherentRisk risk1, residualRisk risk1)
  = (inherentRisk risk2, residualRisk risk2)
  /\ (inherentRisk risk1, residualRisk risk1)
     = scoreItem (likelihood risk1) (impact risk1) (hasMitigation risk1).
Proof.
  cbv zeta.
  eapply (scoreItem_deterministic 0 1 FLikelihood FImpact "High" "High"
           (exampleAssessment "Payments"
              [ {| id := "_1000_0"; description := "Regulatory fines";
                   likelihood := "Low"; impact := "High";
                   inherentRisk := "Medium";
                   mitigationControls := ["KYC checks"];
                   residualRisk := "Low" |} ])
           (exampleAssessment "Lending"
              [ exampleItem "Low" "Low" [] "Low" "Low";
                {| id := "_1007_5"; description := "Data breach";
                   likelihood := "High"; impact := "Low";
                   inherentRisk := "Low";
                   mitigationControls := ["Encryption"; "Staff training"];
                   residualRisk := "Medium" |} ]));
    reflexivity.
Defined.

(** C9. The item appended by the add-item handler has likelihood Low, impact
    Low, no controls, inherent and residual risk Low, which is what
    [scoreItem] derives from those inputs. *)
Theorem handleAddRiskItem_consistent (nextId now : N)
  (prev : RiskAssessment) :
  exists fresh : RiskItem,
    identifiedRisks (fst (handleAddRiskItem nextId now prev))
    = (identifiedRisks prev ++ [fresh])%list
    /\ likelihood fresh = "Low"
    /\ impact fresh = "Low"
    /\ mitigationControls fresh = []
    /\ inherentRisk fresh = "Low"
    /\ residualRisk fresh = "Low"
    /\ (inherentRisk fresh, residualRisk fresh)
       = scoreItem (likelihood fresh) (impact fresh) (hasMitigation fresh).
Proof.
  eexists. split; [reflexivity|]. repeat split.
Qed.

(** C5 fails on [handleMitigationControlsChange]. Start from a new
    assessment, add an item, set its likelihood and its impact to High: the
    item is consistent (Critical, Critical). Entering a control then leaves
    residualRisk at Critical although [scoreItem] now derives High. *)
Theorem handleMitigationControlsChange_stale_residual :
  let added :=
    fst (handleAddRiskItem 1000 0 (exampleAssessment "Payments" [])) in
  let consistent := exampleItem "High" "High" [] "Critical" "Critical" in
  let stale :=
    exampleItem "High" "High" ["Transaction monitoring"]
      "Critical" "Critical" in
  handleRiskItemChange 0 FLikelihood "High" added
  = Return (exampleAssessment "Payments"
              [exampleItem "High" "Low" [] "Medium" "Medium"])
  /\ handleRiskItemChange 0 FImpact "High"
       (exampleAssessment "Payments"
          [exampleItem "High" "Low" [] "Medium" "Medium"])
     = Return (exampleAssessment "Payments" [consistent])
  /\ derivedConsistent consistent = true
  /\ handleMitigationControlsChange 0 "Transaction monitoring"
       (exampleAssessment "Payments" [consistent])
     = Return (exampleAssessment "Payments" [stale])
  /\ scoreItem (likelihood stale) (impact stale) (hasMitigation stale)
     = ("Critical", "High")
  /\ residualRisk stale = "Critical"
  /\ derivedConsistent stale = false.
Proof. cbv zeta. repeat split. Qed.

(** ** Submitting *)

(** C10. [handleSubmit] never changes the form state; it calls onSubmit
    exactly when the scope is non-empty and there is at least one risk, and
    then with that non-empty list of risks; otherwise its only call is the
    error notification. *)
Theorem handleSubmit_guarded (formState : RiskAssessment) :
  fst (handleSubmit formState) = formState
  /\ ((exists a, In (OnSubmit a) (snd (handleSubmit formState)))
      <-> (scope formState <> "" /\ identifiedRisks formState <> []))
  /\ (forall a, In (OnSubmit a) (snd (handleSubmit formState)) ->
        a = setOverallRiskRating formState
              (scoreAssessment (identifiedRisks formState))
        /\ scope a <> ""
        /\ identifiedRisks a <> [])
  /\ (~ (scope formState <> "" /\ identifiedRisks formState <> []) ->
        snd (handleSubmit formState)
        = [ShowNotification
             "Please define the scope and at least one risk item for the assessment."
             "error"]).
Proof.
  unfold handleSubmit, nonEmpty.
  destruct (String.eqb_spec (scope formState) "") as [S|S];
    destruct (identifiedRisks formState) as [|r rs] eqn:R; simpl.
  1-3: split; [reflexivity|]; split;
       [split; [intros [a [H|[]]]; discriminate H | intros [? ?]; congruence]|];
       split; [intros a [H|[]]; discriminate H | reflexivity].
  split; [reflexivity|]. split.
  - split; [intros _; split; [assumption | discriminate] | eauto].
  - split.
    + intros a [H|[]]. injection H as <-. simpl. rewrite R.
      repeat split; [assumption | discriminate].
    + intros H. exfalso. apply H. split; [assumption | discriminate].
Qed.

(** ** The overall rating *)

Lemma parseRating_ratingStr (r : Rating) : parseRating (ratingStr r) = Some r.
Proof. destruct r; reflexivity. Qed.

Lemma parseRating_Some (s : string) (r : Rating) :
  parseRating s = Some r -> s = ratingStr r.
Proof.
  unfold parseRating.
  destruct (String.eqb_spec s "Low") as [->|_]; [now intros [= <-]|].
  destruct (String.eqb_spec s "Medium") as [->|_]; [now intros [= <-]|].
  destruct (String.eqb_spec s "High") as [->|_]; [now intros [= <-]|].
  destruct (String.eqb_spec s "Critical") as [->|_]; [now intros [= <-]|].
  discriminate.
Qed.

Lemma isRating_parse (s : string) :
  isRating s = true -> exists r, parseRating s = Some r.
Proof.
  unfold isRating, parseRating; simpl.
  destruct (s =? "Low")%string; [eauto|].
  destruct (s =? "Medium")%string; [eauto|].
  destruct (s =? "High")%string; [eauto|].
  destruct (s =? "Critical")%string; [eauto|discriminate].
Qed.

(** [riskOrder[s]] as a number: the rank of the rating [s] denotes, NaN for
    any other string. *)
Lemma riskOrder_toNumber (s : string) :
  toNumber (get riskOrder s) = option_map ratingRank (parseRating s).
Proof.
  destruct (parseRating s) as [r|] eqn:P.
  - apply parseRating_Some in P as ->. destruct r; reflexivity.
  - unfold parseRating in P. unfold get, riskOrder, own.
    rewrite (String.eqb_sym "Low"), (String.eqb_sym "Medium"),
            (String.eqb_sym "High"), (String.eqb_sym "Critical").
    destruct (s =? "Low")%string; [discriminate|].
    destruct (s =? "Medium")%string; [discriminate|].
    destruct (s =? "High")%string; [discriminate|].
    destruct (s =? "Critical")%string; [discriminate|].
    destruct (existsb (String.eqb s) objectPrototypeKeys); reflexivity.
Qed.

(** One step of the reduce, started from a rating, stays a rating: the
    larger of the two when the item carries one, the accumulator if not. *)
Lemma maxRiskStep_join (a : Rating) (risk : RiskItem) :
  maxRiskStep (ratingStr a) risk
  = ratingStr (joinRating a (residualRisk risk)).
Proof.
  unfold maxRiskStep, gt, joinRating.
  rewrite !riskOrder_toNumber, parseRating_ratingStr.
  destruct (parseRating (residualRisk risk)) as [b|] eqn:P; simpl;
    [|reflexivity].
  apply parseRating_Some in P.
  destruct (ratingRank a <? ratingRank b); congruence.
Qed.

Lemma fold_maxRiskStep_join (items : list RiskItem) (a : Rating) :
  fold_left maxRiskStep items (ratingStr a)
  = ratingStr
      (fold_left (fun acc risk => joinRating acc (residualRisk risk)) items a).
Proof.
  revert a; induction items as [|risk items IH]; intros a; simpl;
    [reflexivity|].
  rewrite maxRiskStep_join. apply IH.
Qed.

Lemma joinRating_swap (a : Rating) (s t : string) :
  joinRating (joinRating a s) t = joinRating (joinRating a t) s.
Proof.
  unfold joinRating.
  destruct (parseRating s) as [b|], (parseRating t) as [c|]; try reflexivity.
  destruct a, b, c; reflexivity.
Qed.

Lemma joinRating_ge (a : Rating) (s : string) :
  ratingRank a <= ratingRank (joinRating a s).
Proof.
  unfold joinRating. destruct (parseRating s) as [b|]; [|lia].
  destruct (Z.ltb_spec (ratingRank a) (ratingRank b)); lia.
Qed.

Lemma fold_joinRating_permutation (l l' : list RiskItem) :
  Permutation l l' ->
  forall a : Rating,
    fold_left (fun acc risk => joinRating acc (residualRisk risk)) l a
    = fold_left (fun acc risk => joinRating acc (residualRisk risk)) l' a.
Proof.
  induction 1 as [|x l l' _ IH|x y l|l l' l'' _ IH1 _ IH2]; intros a; simpl.
  - reflexivity.
  - apply IH.
  - now rewrite joinRating_swap.
  - now rewrite IH1, IH2.
Qed.

(** The reduce from a rating [a] over items that all carry ratings: the
    result is a rating, at least [a] and at least every item's, and it is
    [a] or the rating of one of the items. *)
Lemma fold_maxRiskStep_maximum (items : list RiskItem) :
  Forall (fun risk => isRating (residualRisk risk) = true) items ->
  forall a : Rating,
  exists r : Rating,
    fold_left maxRiskStep items (ratingStr a) = ratingStr r
    /\ ratingRank a <= ratingRank r
    /\ (forall risk, In risk items ->
          ratingLe (residualRisk risk) (ratingStr r))
    /\ (r = a \/ exists risk, In risk items /\ residualRisk risk = ratingStr r).
Proof.
  induction 1 as [|risk items V _ IH]; intros a; simpl.
  - exists a. repeat split; [lia | intros ? [] | now left].
  - rewrite maxRiskStep_join.
    destruct (isRating_parse _ V) as [b P].
    pose proof (parseRating_Some _ _ P) as B.
    destruct (IH (joinRating a (residualRisk risk))) as (r & E & G & U & W).
    exists r. split; [exact E|].
    pose proof (joinRating_ge a (residualRisk risk)) as GA.
    assert (GB : ratingRank b <= ratingRank (joinRating a (residualRisk risk))).
    { unfold joinRating. rewrite P.
      destruct (Z.ltb_spec (ratingRank a) (ratingRank b)); lia. }
    split; [lia|]. split.
    + intros x [<-|I]; [|now apply U].
      exists b, r. repeat split; [assumption | lia].
    + destruct W as [->|(x & I & X)]; [|right; exists x; auto].
      unfold joinRating. rewrite P.
      destruct (ratingRank a <? ratingRank b); [|now left].
      right. exists risk. auto.
Qed.

(** C3. Over items that each carry a rating as residualRisk, the overall
    rating is their maximum in the order Low < Medium < High < Critical: it
    is at least every item's rating and, for a non-empty sequence, it is
    the rating of one of the items; for the empty sequence it is Low. *)
Theorem scoreAssessment_maximum (items : list RiskItem) :
  Forall (fun risk => isRating (residualRisk risk) = true) items ->
  exists r : Rating,
    scoreAssessment items = ratingStr r
    /\ (forall risk, In risk items ->
          ratingLe (residualRisk risk) (ratingStr r))
    /\ (items <> [] ->
          exists risk, In risk items /\ residualRisk risk = ratingStr r)
    /\ (items = [] -> r = Low).
Proof.
  intros V. unfold scoreAssessment.
  destruct (fold_maxRiskStep_maximum items V Low) as (r & E & G & U & W).
  exists r. split; [exact E|]. split; [exact U|]. split.
  - intros NE. destruct W as [->|W]; [|exact W].
    destruct items as [|risk items]; [congruence|].
    exists risk. split; [now left|].
    destruct (U risk (or_introl eq_refl)) as (ra & rb & A & B & L).
    rewrite A. destruct rb; try discriminate B. destruct ra; simpl in L; (reflexivity || lia).
  - intros ->. destruct W as [->|(x & [] & _)]. reflexivity.
Qed.

Lemma scoreAssessment_maximum_witness :
  let items := [ exampleItem "Low" "Low" [] "Low" "Low";
                 exampleItem "Medium" "High" ["Sanctions screening"]
                   "Critical" "High";
                 exampleItem "Low" "High" [] "Medium" "Medium" ] in
  exists r : Rating,
    scoreAssessment items = ratingStr r
    /\ (forall risk, In risk items ->
          ratingLe (residualRisk risk) (ratingStr r))
    /\ (items <> [] ->
          exists risk, In risk items /\ residualRisk risk = ratingStr r)
    /\ (items = [] -> r = Low).
Proof.
  cbv zeta. apply scoreAssessment_maximum.
  repeat constructor.
Defined.

(** C7. The overall rating of a sequence of items and of any permutation
    of it are the same. *)
Theorem scoreAssessment_permutation (items items' : list RiskItem) :
  Permutation items items' ->
  scoreAssessment items = scoreAssessment items'.
Proof.
  intros P. unfold scoreAssessment.
  change "Low" with (ratingStr Low).
  rewrite !fold_maxRiskStep_join.
  f_equal. now apply fold_joinRating_permutation.
Qed.

Lemma scoreAssessment_permutation_witness :
  scoreAssessment
    [ exampleItem "Low" "Low" [] "Low" "Low";
      exampleItem "Medium" "Medium" [] "High" "High";
      exampleItem "Low" "High" [] "Medium" "Medium" ]
  = scoreAssessment
      [ exampleItem "Medium" "Medium" [] "High" "High";
        exampleItem "Low" "High" [] "Medium" "Medium";
        exampleItem "Low" "Low" [] "Low" "Low" ].
Proof.
  apply scoreAssessment_permutation.
  apply Permutation_cons_append.
Defined.

(** * Further properties of the code *)

(** ** Scoring, for any strings *)

Lemma inherentRiskOf_rating (score : value) :
  exists r : Rating, inherentRiskOf score = ratingStr r.
Proof.
  unfold inherentRiskOf.
  destruct (ge score (Num 6)); [now exists Critical|].
  destruct (ge score (Num 4)); [now exists High|].
  destruct (ge score (Num 2)); [now exists Medium | now exists Low].
Qed.

Lemma residualRiskOf_rating (m : bool) (r : Rating) :
  residualRiskOf m (ratingStr r)
  = ratingStr (if m then spec_demote r else r).
Proof. destruct r, m; reflexivity. Qed.

(** X1. Whatever strings the likelihood and the impact are, both derived
    fields are ratings, and the residual risk is the inherent risk or, with
    controls, one level below it: never above. *)
Theorem scoreItem_range (l i : string) (m : bool) :
  exists inherent residual : Rating,
    scoreItem l i m = (ratingStr inherent, ratingStr residual)
    /\ residual = (if m then spec_demote inherent else inherent)
    /\ ratingRank residual <= ratingRank inherent
    /\ ratingRank inherent - 1 <= ratingRank residual.
Proof.
  unfold scoreItem.
  destruct (inherentRiskOf_rating (inherentScore l i)) as [r ->].
  exists r, (if m then spec_demote r else r).
  rewrite residualRiskOf_rating.
  split; [reflexivity|]. split; [reflexivity|].
  destruct r, m; simpl; lia.
Qed.

(** ** Editing the list of risks *)

Lemma setAt_length {A : Type} (l : list A) (n : nat) (x : A) :
  List.length (setAt l n x) = List.length l.
Proof.
  revert n; induction l as [|y l IH]; intros [|n]; simpl; auto.
Qed.

Lemma setAt_Forall {A : Type} (P : A -> Prop) (l : list A) (n : nat) (x : A) :
  Forall P l -> P x -> Forall P (setAt l n x).
Proof.
  intros F Px. revert n; induction F as [|y l Py F IH]; intros [|n]; simpl;
    constructor; auto.
Qed.

Lemma setAt_same {A : Type} (l : list A) (n : nat) (x : A) :
  nth_error l n = Some x -> setAt l n x = l.
Proof.
  revert n; induction l as [|y l IH]; intros [|n] H; simpl in *;
    try discriminate.
  - now injection H as ->.
  - f_equal. now apply IH.
Qed.

Lemma setIdentifiedRisks_same (a : RiskAssessment) :
  setIdentifiedRisks a (identifiedRisks a) = a.
Proof. destruct a; reflexivity. Qed.

(** X2. A successful [handleRiskItemChange] touches one item only: the list
    keeps its length, every other position keeps its item, the other fields
    of the form are unchanged, and the edited item keeps its controls and
    every string field other than the one written and, for likelihood and
    impact, the two derived ones. *)
Theorem handleRiskItemChange_frame (index : nat) (field : Field)
  (value : string) (formState formState' : RiskAssessment) :
  handleRiskItemChange index field value formState = Return formState' ->
  List.length (identifiedRisks formState')
  = List.length (identifiedRisks formState)
  /\ (forall k, k <> index ->
        nth_error (identifiedRisks formState') k
        = nth_error (identifiedRisks formState) k)
  /\ setIdentifiedRisks formState' (identifiedRisks formState) = formState
  /\ exists old new,
       nth_error (identifiedRisks formState) index = Some old
       /\ nth_error (identifiedRisks formState') index = Some new
       /\ mitigationControls new = mitigationControls old
       /\ (field <> FId -> id new = id old)
       /\ (field <> FDescription -> description new = description old)
       /\ (field <> FLikelihood -> likelihood new = likelihood old)
       /\ (field <> FImpact -> impact new = impact old)
       /\ (recalculates field = false -> field <> FInherentRisk ->
             inherentRisk new = inherentRisk old)
       /\ (recalculates field = false -> field <> FResidualRisk ->
             residualRisk new = residualRisk old).
Proof.
  unfold handleRiskItemChange.
  destruct (nth_error (identifiedRisks formState) index) as [old|] eqn:E;
    [|discriminate].
  intros [= <-]. simpl.
  split; [apply setAt_length|].
  split; [intros k N; apply nth_error_setAt_neq; congruence|].
  split; [destruct formState; reflexivity|].
  eexists old, _. split; [reflexivity|].
  split; [eapply nth_error_setAt_eq; eassumption|].
  destruct field; simpl; repeat split; congruence.
Qed.

Lemma handleRiskItemChange_frame_witness :
  List.length
    [exampleItem "Low" "Low" [] "Low" "Low";
     exampleItem "High" "Low" ["Audit"] "Medium" "Low"]
  = 2%nat.
Proof.
  apply (handleRiskItemChange_frame 1 FLikelihood "High"
           (exampleAssessment "Payments"
              [exampleItem "Low" "Low" [] "Low" "Low";
               exampleItem "Low" "Low" ["Audit"] "Low" "Low"])
           (exampleAssessment "Payments"
              [exampleItem "Low" "Low" [] "Low" "Low";
               exampleItem "High" "Low" ["Audit"] "Medium" "Low"])).
  reflexivity.
Defined.

Lemma recalculate_consistent (risk : RiskItem) :
  derivedConsistent (recalculate risk) = true.
Proof.
  unfold derivedConsistent, recalculate, setDerived, hasMitigation; simpl.
  now rewrite !String.eqb_refl.
Qed.

(** X3. The three changes the form makes through [handleRiskItemChange]
    (description, likelihood, impact) keep the list consistent: if every
    item's derived fields agree with [scoreItem] before, they do after. *)
Theorem handleRiskItemChange_keeps_consistent (index : nat) (field : Field)
  (value : string) (formState formState' : RiskAssessment) :
  field = FDescription \/ field = FLikelihood \/ field = FImpact ->
  Forall (fun risk => derivedConsistent risk = true)
    (identifiedRisks formState) ->
  handleRiskItemChange index field value formState = Return formState' ->
  Forall (fun risk => derivedConsistent risk = true)
    (identifiedRisks formState').
Proof.
  intros Fd All. unfold handleRiskItemChange.
  destruct (nth_error (identifiedRisks formState) index) as [old|] eqn:E;
    [|discriminate].
  intros [= <-]. simpl.
  apply setAt_Forall; [exact All|].
  destruct Fd as [-> | [-> | ->]]; simpl;
    try apply recalculate_consistent.
  apply nth_error_In in E.
  rewrite Forall_forall in All. exact (All old E).
Qed.

Lemma handleRiskItemChange_keeps_consistent_witness :
  Forall (fun risk => derivedConsistent risk = true)
    [exampleItem "Medium" "High" ["Audit"] "Critical" "High"].
Proof.
  apply (handleRiskItemChange_keeps_consistent 0 FLikelihood "Medium"
           (exampleAssessment "Payments"
              [exampleItem "Low" "High" ["Audit"] "Medium" "Low"])
           (exampleAssessment "Payments"
              [exampleItem "Medium" "High" ["Audit"] "Critical" "High"])).
  - right; left; reflexivity.
  - repeat constructor.
  - reflexivity.
Defined.

(** ** Identifiers *)

Lemma decimal_noUnderscore (n : N) : noUnderscore (decimal n) = true.
Proof.
  unfold decimal. induction (N.to_uint n); simpl; auto.
Qed.

Lemma decimal_inj (n n' : N) : decimal n = decimal n' -> n = n'.
Proof.
  unfold decimal. intros H. apply DecimalN.Unsigned.to_uint_inj.
  assert (S : Some (N.to_uint n) = Some (N.to_uint n')).
  { rewrite <- !NilEmpty.usu. now rewrite H. }
  now injection S.
Qed.

(** Two texts cut at their first underscore agree piecewise. *)
Lemma underscore_split (a b c d : string) :
  noUnderscore a = true -> noUnderscore c = true ->
  a ++ "_" ++ b = c ++ "_" ++ d -> a = c /\ b = d.
Proof.
  revert c; induction a as [|x a IH]; intros [|y c] Ha Hc H; simpl in *.
  - injection H as ->. auto.
  - injection H as <- _. discriminate Hc.
  - injection H as -> _. discriminate Ha.
  - injection H as -> H.
    apply andb_prop in Ha as [_ Ha]. apply andb_prop in Hc as [_ Hc].
    destruct (IH c Ha Hc H) as [-> ->]. auto.
Qed.

Lemma generateId_fst_inj (n t n' t' : N) :
  fst (generateId n t) = fst (generateId n' t') -> n = n' /\ t = t'.
Proof.
  unfold generateId; cbn [fst]. intros H.
  change ("_" ++ ?x) with (String "_" x) in H.
  injection H as H.
  apply underscore_split in H as [A B]; try apply decimal_noUnderscore.
  split; now apply decimal_inj.
Qed.

(** X5. [generateId] is injective: two identifiers are equal only if both
    the counter and the clock reading were the same, so the identifiers
    drawn from successive values of the counter never collide. *)
Theorem generateId_injective (nextId now nextId' now' : N) :
  fst (generateId nextId now) = fst (generateId nextId' now')
  <-> nextId = nextId' /\ now = now'.
Proof.
  split; [apply generateId_fst_inj | now intros [-> ->]].
Qed.

Lemma filter_all {A : Type} (f : A -> bool) (l : list A) :
  Forall (fun x => f x = true) l -> filter f l = l.
Proof.
  induction 1 as [|x l Hx _ IH]; simpl; [reflexivity|].
  now rewrite Hx, IH.
Qed.

(** X4. Removing the item just added gives back the form state, provided
    no other item carries the new identifier; [handleRemoveRiskItem]
    removes by identifier, so an older item with the same one would go
    too. *)
Theorem handleRemoveRiskItem_after_add (nextId now : N)
  (prev : RiskAssessment) :
  Forall (fun risk => id risk <> fst (generateId nextId now))
    (identifiedRisks prev) ->
  handleRemoveRiskItem (fst (generateId nextId now))
    (fst (handleAddRiskItem nextId now prev))
  = prev.
Proof.
  intros Fresh.
  unfold handleRemoveRiskItem, handleAddRiskItem; cbn [fst].
  cbn [identifiedRisks setIdentifiedRisks].
  rewrite filter_app. cbn [filter id]. rewrite String.eqb_refl. cbn [negb].
  rewrite app_nil_r, filter_all.
  - destruct prev; reflexivity.
  - eapply Forall_impl; [|exact Fresh]. cbn beta.
    intros risk N. apply String.eqb_neq in N. now rewrite N.
Qed.

Lemma handleRemoveRiskItem_after_add_witness :
  handleRemoveRiskItem (fst (generateId 1001 77))
    (fst (handleAddRiskItem 1001 77
            (exampleAssessment "Payments"
               [exampleItem "Low" "High" [] "Medium" "Medium"])))
  = exampleAssessment "Payments"
      [exampleItem "Low" "High" [] "Medium" "Medium"].
Proof.
  apply handleRemoveRiskItem_after_add.
  repeat constructor. discriminate.
Defined.

(** ** The mitigation controls *)

Lemma trimEnd_cons (c : ascii) (rest : string) :
  trimEnd (String c rest)
  = match trimEnd rest with
    | EmptyString => if isWhiteSpace c then EmptyString
                     else String c EmptyString
    | kept => String c kept
    end.
Proof. reflexivity. Qed.

Lemma trimEnd_idempotent (s : string) : trimEnd (trimEnd s) = trimEnd s.
Proof.
  induction s as [|c s IH]; [reflexivity|].
  rewrite trimEnd_cons.
  destruct (trimEnd s) as [|k kept] eqn:E.
  - destruct (isWhiteSpace c) eqn:W; [reflexivity|].
    rewrite trimEnd_cons. simpl. now rewrite W.
  - rewrite trimEnd_cons, IH. reflexivity.
Qed.

Lemma trimStart_head (s : string) :
  match trimStart s with
  | EmptyString => True
  | String c _ => isWhiteSpace c = false
  end.
Proof.
  induction s as [|c s IH]; simpl; [exact I|].
  destruct (isWhiteSpace c) eqn:W; [exact IH | exact W].
Qed.

Lemma trimStart_trimEnd (s : string) :
  match s with
  | EmptyString => True
  | String c _ => isWhiteSpace c = false
  end ->
  trimStart (trimEnd s) = trimEnd s.
Proof.
  destruct s as [|c s]; [reflexivity|]. intros W.
  rewrite trimEnd_cons.
  destruct (trimEnd s); rewrite ?W; simpl; now rewrite W.
Qed.

Lemma trim_idempotent (s : string) : trim (trim s) = trim s.
Proof.
  unfold trim.
  rewrite (trimStart_trimEnd (trimStart s) (trimStart_head s)).
  apply trimEnd_idempotent.
Qed.

Lemma noComma_trimStart (s : string) :
  noComma s = true -> noComma (trimStart s) = true.
Proof.
  induction s as [|c s IH]; simpl; [auto|].
  intros H. destruct (isWhiteSpace c); [|exact H].
  apply andb_prop in H as [_ H]. auto.
Qed.

Lemma noComma_trimEnd (s : string) :
  noComma s = true -> noComma (trimEnd s) = true.
Proof.
  induction s as [|c s IH]; [auto|].
  cbn [noComma]. intros H. apply andb_prop in H as [C H]. specialize (IH H).
  rewrite trimEnd_cons.
  destruct (trimEnd s) as [|k kept].
  - destruct (isWhiteSpace c); simpl; [reflexivity | now rewrite C].
  - cbn [noComma] in *. now rewrite C.
Qed.

Lemma split_comma_noComma (s : string) :
  Forall (fun piece => noComma piece = true) (split_comma s).
Proof.
  induction s as [|c s IH]; simpl; [repeat constructor|].
  destruct (Ascii.eqb c ",") eqn:C; [constructor; [reflexivity | exact IH]|].
  destruct (split_comma s) as [|piece pieces].
  - repeat constructor. simpl. now rewrite C.
  - inversion IH as [|? ? P Ps]; subst. constructor; [|exact Ps].
    simpl. now rewrite C.
Qed.

Lemma parsed_controls_named (value : string) :
  Forall controlName (filter nonEmpty (map trim (split_comma value))).
Proof.
  apply Forall_forall. intros c Hc.
  apply filter_In in Hc as [Hc NE].
  apply in_map_iff in Hc as (piece & <- & Hp).
  pose proof (split_comma_noComma value) as NC.
  rewrite Forall_forall in NC. specialize (NC piece Hp).
  repeat split.
  - unfold nonEmpty in NE. intros E. rewrite E in NE. discriminate.
  - unfold trim. now apply noComma_trimEnd, noComma_trimStart.
  - apply trim_idempotent.
Qed.

Lemma handleMitigationControlsChange_names_aux (index : nat) (value : string)
  (formState formState' : RiskAssessment) (risk : RiskItem) :
  handleMitigationControlsChange index value formState = Return formState' ->
  nth_error (identifiedRisks formState') index = Some risk ->
  Forall controlName (mitigationControls risk).
Proof.
  unfold handleMitigationControlsChange.
  destruct (nth_error (identifiedRisks formState) index) as [old|] eqn:E;
    [|discriminate].
  intros [= <-] N. simpl in N.
  rewrite (nth_error_setAt_eq _ _ _ _ E) in N. injection N as <-.
  simpl. apply parsed_controls_named.
Qed.

(** X6. After [handleMitigationControlsChange], whatever was typed, each
    control of the item is a proper name: not empty, free of commas and of
    white space at either end. *)
Theorem handleMitigationControlsChange_names (index : nat) (value : string)
  (formState formState' : RiskAssessment) (risk : RiskItem) :
  handleMitigationControlsChange index value formState = Return formState' ->
  nth_error (identifiedRisks formState') index = Some risk ->
  Forall controlName (mitigationControls risk).
Proof. apply handleMitigationControlsChange_names_aux. Qed.

Lemma handleMitigationControlsChange_names_witness :
  Forall controlName ["KYC checks"; "Staff training"].
Proof.
  apply (handleMitigationControlsChange_names 0
           "  KYC checks ,, Staff training,  "
           (exampleAssessment "Payments"
              [exampleItem "Low" "High" [] "Medium" "Medium"])
           (exampleAssessment "Payments"
              [exampleItem "Low" "High" ["KYC checks"; "Staff training"]
                 "Medium" "Medium"])
           (exampleItem "Low" "High" ["KYC checks"; "Staff training"]
              "Medium" "Medium"));
    reflexivity.
Defined.

Lemma split_comma_single (a : string) :
  noComma a = true -> split_comma a = [a].
Proof.
  induction a as [|c a IH]; simpl; [reflexivity|].
  intros H. apply andb_prop in H as [C H].
  apply negb_true_iff in C. rewrite C, (IH H). reflexivity.
Qed.

Lemma split_comma_app_comma (a t : string) :
  noComma a = true ->
  split_comma (a ++ String "," t) = a :: split_comma t.
Proof.
  induction a as [|c a IH]; simpl; [reflexivity|].
  intros H. apply andb_prop in H as [C H].
  apply negb_true_iff in C. rewrite C, (IH H). reflexivity.
Qed.

Lemma split_comma_join (c : string) (rest : list string) :
  Forall (fun x => noComma x = true) (c :: rest) ->
  split_comma (join ", " (c :: rest)) = c :: map (String " ") rest.
Proof.
  revert c; induction rest as [|d rest IH]; intros c H.
  - simpl. apply split_comma_single. now inversion H.
  - inversion H as [|? ? Hc Hrest]; subst.
    change (join ", " (c :: d :: rest))
      with (c ++ String "," (String " " (join ", " (d :: rest)))).
    rewrite (split_comma_app_comma _ _ Hc).
    change (split_comma (String " " (join ", " (d :: rest))))
      with (match split_comma (join ", " (d :: rest)) with
            | piece :: pieces => String " " piece :: pieces
            | [] => [String " " EmptyString]
            end).
    rewrite (IH d Hrest). reflexivity.
Qed.

(** Reading back the text the form shows for a list of proper names gives
    the list. *)
Lemma parse_join (controls : list string) :
  Forall controlName controls ->
  filter nonEmpty (map trim (split_comma (join ", " controls))) = controls.
Proof.
  intros H. destruct controls as [|c rest]; [reflexivity|].
  rewrite split_comma_join;
    [|eapply Forall_impl; [|exact H]; now intros x (_ & NC & _)].
  assert (T : map trim (c :: map (String " ") rest) = c :: rest).
  { inversion H as [|? ? (_ & _ & Tc) Hrest]; subst.
    cbn [map]. rewrite Tc. f_equal.
    rewrite map_map.
    transitivity (map (fun x : string => x) rest); [|apply map_id].
    apply map_ext_in.
    intros x Hx. rewrite Forall_forall in Hrest.
    destruct (Hrest x Hx) as (_ & _ & Tx).
    change (trim (String " " x)) with (trim x). exact Tx. }
  rewrite T. apply filter_all.
  eapply Forall_impl; [|exact H]. intros x (NE & _ & _).
  unfold nonEmpty. apply String.eqb_neq in NE. now rewrite NE.
Qed.

(** X7. The controls survive the round trip through the textarea: once a
    change has been handled, handling the text the form then displays for
    the item, [mitigationControls.join(', ')], leaves the state as it is. *)
Theorem handleMitigationControlsChange_round_trip (index : nat)
  (value : string) (formState formState' : RiskAssessment)
  (risk : RiskItem) :
  handleMitigationControlsChange index value formState = Return formState' ->
  nth_error (identifiedRisks formState') index = Some risk ->
  handleMitigationControlsChange index (mitigationControlsText risk)
    formState'
  = Return formState'.
Proof.
  intros H N.
  pose proof (handleMitigationControlsChange_names_aux _ _ _ _ _ H N) as Named.
  unfold handleMitigationControlsChange. rewrite N.
  unfold mitigationControlsText. rewrite (parse_join _ Named).
  f_equal.
  replace (setMitigationControls risk (mitigationControls risk)) with risk
    by (destruct risk; reflexivity).
  rewrite (setAt_same _ _ _ N). apply setIdentifiedRisks_same.
Qed.

Lemma handleMitigationControlsChange_round_trip_witness :
  handleMitigationControlsChange 0 "KYC checks, Staff training"
    (exampleAssessment "Payments"
       [exampleItem "Low" "High" ["KYC checks"; "Staff training"]
          "Medium" "Medium"])
  = Return
      (exampleAssessment "Payments"
         [exampleItem "Low" "High" ["KYC checks"; "Staff training"]
            "Medium" "Medium"]).
Proof.
  apply (handleMitigationControlsChange_round_trip 0
           "  KYC checks ,, Staff training,  "
           (exampleAssessment "Payments"
              [exampleItem "Low" "High" [] "Medium" "Medium"])
           (exampleAssessment "Payments"
              [exampleItem "Low" "High" ["KYC checks"; "Staff training"]
                 "Medium" "Medium"])
           (exampleItem "Low" "High" ["KYC checks"; "Staff training"]
              "Medium" "Medium"));
    reflexivity.
Defined.

(** ** The overall rating, for any items *)

Lemma scoreAssessment_rating (items : list RiskItem) :
  exists r : Rating, scoreAssessment items = ratingStr r.
Proof.
  unfold scoreAssessment. change "Low" with (ratingStr Low).
  rewrite fold_maxRiskStep_join. eauto.
Qed.

(** X8. What [handleSubmit] passes to onSubmit is the form state with a
    new overall rating and nothing else changed, and that rating is one of
    Low, Medium, High, Critical whatever strings the items carry as
    residual risk. *)
Theorem handleSubmit_overall_rating (formState a : RiskAssessment) :
  In (OnSubmit a) (snd (handleSubmit formState)) ->
  isRating (overallRiskRating a) = true
  /\ setOverallRiskRating a (overallRiskRating formState) = formState.
Proof.
  unfold handleSubmit.
  destruct (negb (nonEmpty (scope formState))
            || (List.length (identifiedRisks formState) =? 0)%nat)%bool;
    simpl; (intros [H|[]]); [discriminate H|].
  injection H as <-. simpl.
  destruct (scoreAssessment_rating (identifiedRisks formState)) as [r ->].
  split; [destruct r; reflexivity | destruct formState; reflexivity].
Qed.

Lemma handleSubmit_overall_rating_witness :
  isRating "Low" = true
  /\ setOverallRiskRating
       (exampleAssessment "Payments"
          [exampleItem "Low" "Low" [] "Low" "Unknown"])
       "Low"
     = exampleAssessment "Payments"
         [exampleItem "Low" "Low" [] "Low" "Unknown"].
Proof.
  apply (handleSubmit_overall_rating
           (exampleAssessment "Payments"
              [exampleItem "Low" "Low" [] "Low" "Unknown"])
           (exampleAssessment "Payments"
              [exampleItem "Low" "Low" [] "Low" "Unknown"])).
  left. reflexivity.
Defined.

Lemma fold_joinRating_from (items : list RiskItem) (a : Rating) :
  fold_left (fun acc risk => joinRating acc (residualRisk risk)) items a
  = ratingMax a
      (fold_left (fun acc risk => joinRating acc (residualRisk risk))
         items Low).
Proof.
  revert a; induction items as [|x items IH]; intros a; simpl.
  - destruct a; reflexivity.
  - rewrite (IH (joinRating a (residualRisk x))),
            (IH (joinRating Low (residualRisk x))).
    unfold joinRating.
    destruct (parseRating (residualRisk x)) as [b|];
      destruct (fold_left _ items Low) as [| | |], a;
      try destruct b; reflexivity.
Qed.

(** X9. The overall rating of two lists put together is the larger of
    their overall ratings: adding items never lowers the rating and
    removing items never raises it. *)
Theorem scoreAssessment_app (items more : list RiskItem) :
  exists a b : Rating,
    scoreAssessment items = ratingStr a
    /\ scoreAssessment more = ratingStr b
    /\ scoreAssessment (items ++ more) = ratingStr (ratingMax a b)
    /\ ratingRank a <= ratingRank (ratingMax a b)
    /\ ratingRank b <= ratingRank (ratingMax a b).
Proof.
  unfold scoreAssessment. change "Low" with (ratingStr Low).
  rewrite !fold_maxRiskStep_join, fold_left_app.
  eexists _, _. split; [reflexivity|]. split; [reflexivity|].
  split; [f_equal; apply fold_joinRating_from|].
  unfold ratingMax.
  match goal with
  | |- context [ ?x <? ?y ] => destruct (Z.ltb_spec x y)
  end; lia.
Qed.

(** ** Storing risk assessments and licences *)

Lemma map_replace_same {A : Type} (key : A -> string) (data : A)
  (l : list A) :
  Forall (fun x => key x <> key data) l ->
  map (fun x => if (key x =? key data)%string then data else x) l = l.
Proof.
  induction 1 as [|x l N _ IH]; simpl; [reflexivity|].
  apply String.eqb_neq in N. now rewrite N, IH.
Qed.


(** X10. Saving an assessment that has an identifier replaces, in place,
    every stored assessment with that identifier and touches no other; when
    none has it the list is left as it was, and the handler still reports
    that the assessment was updated. *)
Theorem handleAddEditRiskAssessment_edit (assessmentData : RiskAssessment)
  (now : N) (nowIso : string) (v : ViewState) :
  ra_id assessmentData <> "" ->
  let v' := handleAddEditRiskAssessment assessmentData now nowIso v in
  List.length (allRiskAssessments v') = List.length (allRiskAssessments v)
  /\ (forall k ra,
        nth_error (allRiskAssessments v) k = Some ra ->
        nth_error (allRiskAssessments v') k
        = Some (if (ra_id ra =? ra_id assessmentData)%string
                then assessmentData else ra))
  /\ (Forall (fun ra => ra_id ra <> ra_id assessmentData)
        (allRiskAssessments v) ->
      allRiskAssessments v' = allRiskAssessments v)
  /\ notification v'
     = Some ("Risk assessment updated successfully!", "success")
  /\ nextId v' = nextId v.
Proof.
  intros NE. unfold handleAddEditRiskAssessment, nonEmpty.
  apply String.eqb_neq in NE. rewrite NE. cbn.
  split; [apply length_map|].
  split; [intros k ra H; now rewrite nth_error_map, H|].
  split; [apply (map_replace_same ra_id)|]. split; reflexivity.
Qed.

Lemma handleAddEditRiskAssessment_edit_witness :
  let lost :=
    {| ra_id := "RA-_7_7"; assessmentDate := ""; assessedBy := "";
       scope := "Lending"; identifiedRisks := [];
       overallRiskRating := "Low"; mitigationPlan := ""; status := "Pending";
       reviewDate := "" |} in
  allRiskAssessments (handleAddEditRiskAssessment lost 0 "" emptyView) = [].
Proof.
  cbv zeta.
  refine (proj1 (proj2 (proj2
    (handleAddEditRiskAssessment_edit _ 0 "" emptyView _))) _).
  - discriminate.
  - constructor.
Defined.

(** X11. Submitting a new assessment (no identifier) from a valid form and
    storing it: the stored list gains one entry at the front, with an
    identifier "RA-" followed by a generated one, the risks of the form,
    their overall rating as computed by [scoreAssessment], the author
    "Current User"; the older entries follow unchanged. *)
Theorem handleSubmit_then_store (formState a : RiskAssessment)
  (now : N) (nowIso : string) (v : ViewState) :
  ra_id formState = "" ->
  In (OnSubmit a) (snd (handleSubmit formState)) ->
  exists stored,
    allRiskAssessments (handleAddEditRiskAssessment a now nowIso v)
    = stored :: allRiskAssessments v
    /\ ra_id stored = "RA-" ++ fst (generateId (nextId v) now)
    /\ identifiedRisks stored = identifiedRisks formState
    /\ identifiedRisks stored <> []
    /\ overallRiskRating stored
       = scoreAssessment (identifiedRisks formState)
    /\ scope stored = scope formState
    /\ assessedBy stored = "Current User"
    /\ assessmentDate stored = nowIso
    /\ nextId (handleAddEditRiskAssessment a now nowIso v)
       = N.succ (nextId v).
Proof.
  intros New. unfold handleSubmit.
  destruct (negb (nonEmpty (scope formState))
            || (List.length (identifiedRisks formState) =? 0)%nat)%bool
    eqn:G; simpl; (intros [H|[]]); [discriminate H|].
  injection H as <-.
  unfold handleAddEditRiskAssessment. cbn [ra_id setOverallRiskRating].
  rewrite New. cbn.
  eexists. split; [reflexivity|]. cbn.
  repeat split.
  apply orb_false_iff in G as [_ G].
  destruct (identifiedRisks formState); [discriminate G | discriminate].
Qed.

Lemma handleSubmit_then_store_witness :
  exists stored,
    allRiskAssessments
      (handleAddEditRiskAssessment
         (setOverallRiskRating
            (exampleAssessment "Payments"
               [exampleItem "Medium" "Medium" [] "High" "High"])
            "High")
         5 "2026-01-01T00:00:00.000Z" emptyView)
    = stored :: allRiskAssessments emptyView
    /\ ra_id stored = "RA-" ++ fst (generateId (nextId emptyView) 5)
    /\ identifiedRisks stored
       = identifiedRisks
           (exampleAssessment "Payments"
              [exampleItem "Medium" "Medium" [] "High" "High"])
    /\ identifiedRisks stored <> []
    /\ overallRiskRating stored
       = scoreAssessment
           (identifiedRisks
              (exampleAssessment "Payments"
                 [exampleItem "Medium" "Medium" [] "High" "High"]))
    /\ scope stored
       = scope (exampleAssessment "Payments"
                  [exampleItem "Medium" "Medium" [] "High" "High"])
    /\ assessedBy stored = "Current User"
    /\ assessmentDate stored = "2026-01-01T00:00:00.000Z"
    /\ nextId
         (handleAddEditRiskAssessment
            (setOverallRiskRating
               (exampleAssessment "Payments"
                  [exampleItem "Medium" "Medium" [] "High" "High"])
               "High")
            5 "2026-01-01T00:00:00.000Z" emptyView)
       = N.succ (nextId emptyView).
Proof.
  apply handleSubmit_then_store; [reflexivity | left; reflexivity].
Defined.









(** X13. The delete button of the risk-assessment details deletes no risk
    assessment: it calls the licence handler with the assessment's
    identifier. With identifiers as the handlers make them ("RA-..." for
    assessments, "LIC-..." for licences) both stored lists are left as they
    were, the modal closes and the notification says a licence was
    deleted. *)
Theorem handleDeleteClick_deletes_nothing (assessment : RiskAssessment)
  (v : ViewState) :
  (exists x, ra_id assessment = "RA-" ++ x) ->
  Forall (fun lic => exists y, lic_id lic = "LIC-" ++ y) (allLicenses v) ->
  let v' := handleDeleteClick assessment true v in
  allRiskAssessments v' = allRiskAssessments v
  /\ allLicenses v' = allLicenses v
  /\ notification v' = Some ("License deleted successfully!", "success")
  /\ isViewRiskAssessmentModalOpen v' = false.
Proof.
  intros [x Hx] L. cbn.
  split; [reflexivity|]. split; [|split; reflexivity].
  apply filter_all. eapply Forall_impl; [|exact L]. cbn beta.
  intros lic [y Hy]. rewrite Hx, Hy. reflexivity.
Qed.

Lemma handleDeleteClick_deletes_nothing_witness :
  let stored :=
    {| ra_id := "RA-_1000_5"; assessmentDate := ""; assessedBy := "";
       scope := "Payments"; identifiedRisks := [];
       overallRiskRating := "Low"; mitigationPlan := ""; status := "Pending";
       reviewDate := "" |} in
  let v :=
    {| nextId := 1002;
       allLicenses :=
         [mkLicense "LIC-_1001_5" "Money Transmitter" "" "Active" "" "" ""
            "" "" 12 [] [] [] "" "" "" 0 "" "" "JUR001"];
       allRiskAssessments := [stored];
       notification := None; isLoading := false;
       isLicenseModalOpen := false; editingLicense := None;
       isRiskAssessmentModalOpen := false; editingRiskAssessment := None;
       isViewRiskAssessmentModalOpen := true |} in
  let v' := handleDeleteClick stored true v in
  allRiskAssessments v' = allRiskAssessments v
  /\ allLicenses v' = allLicenses v
  /\ notification v' = Some ("License deleted successfully!", "success")
  /\ isViewRiskAssessmentModalOpen v' = false.
Proof.
  cbv zeta. apply handleDeleteClick_deletes_nothing.
  - exists "_1000_5". reflexivity.
  - repeat constructor. exists "_1001_5". reflexivity.
Defined.

(** ** Items shared between the form and the saved assessment *)

Lemma shown_setAt (store : list RiskItem) (array : list nat)
  (items : list RiskItem) (index address : nat) (risk : RiskItem) :
  NoDup array ->
  shown store array = map Some items ->
  nth_error array index = Some address ->
  shown (setAt store address risk) array = map Some (setAt items index risk).
Proof.
  unfold shown.
  revert items index; induction array as [|a array IH];
    intros items index ND S N.
  - destruct index; discriminate N.
  - destruct items as [|x items]; [discriminate S|].
    cbn [map] in S. injection S as Sa S.
    inversion ND as [|? ? NI ND']; subst.
    destruct index as [|index]; cbn [nth_error] in N.
    + injection N as ->. cbn [map setAt].
      rewrite (nth_error_setAt_eq _ _ _ _ Sa). f_equal.
      rewrite <- S. apply map_ext_in.
      intros b Hb. apply nth_error_setAt_neq. congruence.
    + cbn [map setAt]. f_equal.
      * rewrite nth_error_setAt_neq; [exact Sa|].
        intros ->. apply NI. eapply nth_error_In; eassumption.
      * now apply IH.
Qed.

(** X14. An edit in the form is an edit of the saved assessment. For an
    array of distinct addresses showing [items], the handler on the store
    succeeds exactly as [handleRiskItemChange] does on [items], hands back
    the same array, and afterwards that array, which the handler never
    wrote and which is also the saved assessment's, shows the edited
    list. *)
Theorem handleRiskItemChange_shared_saved (index : nat) (field : Field)
  (value : string) (store : list RiskItem) (saved : list nat)
  (formState : RiskAssessment) :
  NoDup saved ->
  shown store saved = map Some (identifiedRisks formState) ->
  match handleRiskItemChange index field value formState with
  | Return formState' =>
      exists store',
        handleRiskItemChange_shared index field value store saved
        = Return (store', saved)
        /\ shown store' saved = map Some (identifiedRisks formState')
  | Throw e =>
      handleRiskItemChange_shared index field value store saved = Throw e
  end.
Proof.
  intros ND S.
  unfold handleRiskItemChange, handleRiskItemChange_shared.
  assert (L : nth_error (shown store saved) index
              = option_map Some (nth_error (identifiedRisks formState) index)).
  { rewrite S. apply nth_error_map. }
  unfold shown in L. rewrite nth_error_map in L.
  destruct (nth_error (identifiedRisks formState) index) as [risk|] eqn:E;
    destruct (nth_error saved index) as [address|] eqn:A;
    cbn in L; try discriminate L.
  - injection L as L. rewrite L.
    eexists. split; [reflexivity|]. cbn.
    now apply shown_setAt.
  - reflexivity.
Qed.

Lemma handleRiskItemChange_shared_saved_witness :
  exists store',
    handleRiskItemChange_shared 0 FImpact "High"
      [exampleItem "Low" "Low" [] "Low" "Low";
       exampleItem "High" "Low" [] "Medium" "Medium"]
      [1%nat]
    = Return (store', [1%nat])
    /\ shown store' [1%nat]
       = map Some [exampleItem "High" "High" [] "Critical" "Critical"].
Proof.
  apply (handleRiskItemChange_shared_saved 0 FImpact "High"
           [exampleItem "Low" "Low" [] "Low" "Low";
            exampleItem "High" "Low" [] "Medium" "Medium"]
           [1%nat]
           (exampleAssessment "Payments"
              [exampleItem "High" "Low" [] "Medium" "Medium"])).
  - repeat constructor; intros [].
  - reflexivity.
Defined.

(** X15. Adding an item in the form is not seen by the saved assessment:
    the store only grows, so an array of valid addresses shows what it
    showed, while the form's new array shows the old items followed by the
    item [handleAddRiskItem] appends. *)
Theorem handleAddRiskItem_shared_saved (nextId now : N)
  (store : list RiskItem) (saved : list nat) (formState : RiskAssessment) :
  shown store saved = map Some (identifiedRisks formState) ->
  let '(store', formRisks', nextId') :=
    handleAddRiskItem_shared nextId now store saved in
  shown store' saved = shown store saved
  /\ shown store' formRisks'
     = map Some
         (identifiedRisks (fst (handleAddRiskItem nextId now formState)))
  /\ nextId' = snd (handleAddRiskItem nextId now formState).
Proof.
  intros S. unfold handleAddRiskItem_shared, handleAddRiskItem.
  cbn [fst snd identifiedRisks setIdentifiedRisks].
  set (fresh := mkRiskItem _ _ _ _ _ _ _).
  assert (K : shown (store ++ [fresh]) saved = shown store saved).
  { unfold shown. apply map_ext_in. intros a Ha.
    apply nth_error_app1.
    assert (V : In (nth_error store a) (shown store saved))
      by (apply in_map; exact Ha).
    rewrite S in V. apply in_map_iff in V as (x & V & _).
    apply nth_error_Some. congruence. }
  split; [exact K|]. split; [|reflexivity].
  unfold shown in *. rewrite !map_app, K, S. cbn [map].
  rewrite nth_error_app2, Nat.sub_diag by lia. reflexivity.
Qed.

Lemma handleAddRiskItem_shared_saved_witness :
  let '(store', formRisks', nextId') :=
    handleAddRiskItem_shared 1001 5
      [exampleItem "High" "Low" [] "Medium" "Medium"] [0%nat] in
  shown store' [0%nat]
  = shown [exampleItem "High" "Low" [] "Medium" "Medium"] [0%nat]
  /\ shown store' formRisks'
     = map Some
         (identifiedRisks
            (fst (handleAddRiskItem 1001 5
                    (exampleAssessment "Payments"
                       [exampleItem "High" "Low" [] "Medium" "Medium"]))))
  /\ nextId'
     = snd (handleAddRiskItem 1001 5
              (exampleAssessment "Payments"
                 [exampleItem "High" "Low" [] "Medium" "Medium"])).
Proof.
  apply (handleAddRiskItem_shared_saved 1001 5
           [exampleItem "High" "Low" [] "Medium" "Medium"] [0%nat]
           (exampleAssessment "Payments"
              [exampleItem "High" "Low" [] "Medium" "Medium"])).
  reflexivity.
Defined.

(** ** Truncated text *)

Lemma length_app_string (a b : string) :
  String.length (a ++ b) = (String.length a + String.length b)%nat.
Proof. induction a as [|c a IH]; simpl; [reflexivity | now rewrite IH]. Qed.

Lemma length_substring_0 (n : nat) (s : string) :
  String.length (String.substring 0 n s) = Nat.min n (String.length s).
Proof.
  revert n; induction s as [|c s IH]; intros [|n]; simpl; auto.
Qed.

Lemma prefix_substring_0 (n : nat) (s : string) :
  String.prefix (String.substring 0 n s) s = true.
Proof.
  revert n; induction s as [|c s IH]; intros [|n]; simpl; auto.
  destruct (ascii_dec c c); [apply IH | congruence].
Qed.

(** X16. [truncateText] with a bound that is not negative: a text within
    the bound is returned as it is; a longer one becomes its first [length]
    characters followed by three dots, so the result has [length + 3]
    characters, which for a text one or two characters over the bound is
    more than the text had. *)
Theorem truncateText_length (text : string) (length : Z) :
  0 <= length ->
  let result := truncateText text length in
  let n := Z.of_nat (String.length text) in
  (n <= length -> result = text)
  /\ (length < n ->
        result = substring0 text length ++ "..."
        /\ String.prefix (substring0 text length) text = true
        /\ Z.of_nat (String.length result) = length + 3)
  /\ Z.of_nat (String.length result) <= length + 3.
Proof.
  intros L. cbv zeta. unfold truncateText, substring0.
  destruct (Z.ltb_spec length (Z.of_nat (String.length text))) as [Lt|Ge].
  - assert (E : Z.of_nat (String.length
                    (String.substring 0 (Z.to_nat length) text ++ "..."))
                = length + 3).
    { rewrite length_app_string, length_substring_0. simpl String.length. lia. }
    split; [lia|]. split; [|lia].
    intros _. split; [reflexivity|]. split; [apply prefix_substring_0 | exact E].
  - split; [reflexivity|]. split; lia.
Qed.

Lemma truncateText_length_witness :
  let result := truncateText "Cross-border payments" 20 in
  let n := Z.of_nat (String.length "Cross-border payments") in
  (n <= 20 -> result = "Cross-border payments")
  /\ (20 < n ->
        result = substring0 "Cross-border payments" 20 ++ "..."
        /\ String.prefix (substring0 "Cross-border payments" 20)
             "Cross-border payments" = true
        /\ Z.of_nat (String.length result) = 20 + 3)
  /\ Z.of_nat (String.length result) <= 20 + 3.
Proof. apply truncateText_length. lia. Defined.

(** ** Pages *)

Lemma slice_nonneg {A : Type} (l : list A) (a b : Z) :
  0 <= a <= b ->
  slice l a b = firstn (Z.to_nat (b - a)) (skipn (Z.to_nat a) l).
Proof.
  intros [Ha Hab]. unfold slice.
  destruct (Z.ltb_spec a 0) as [?|_]; [lia|].
  destruct (Z.ltb_spec b 0) as [?|_]; [lia|].
  set (len := Z.of_nat (List.length l)).
  destruct (Z.le_gt_cases len a) as [Out|In].
  - rewrite !skipn_all2 by (unfold len in *; lia).
    now rewrite !firstn_nil.
  - rewrite (Z.min_l a len) by lia.
    destruct (Z.le_gt_cases b len) as [Bin|Bout].
    + rewrite (Z.min_l b len), Z.max_l by lia. reflexivity.
    + rewrite (Z.min_r b len), Z.max_l by lia.
      rewrite !firstn_all2; [reflexivity| |];
        rewrite length_skipn; unfold len in *; lia.
Qed.

Lemma currentPageItems_chunk {A : Type} (l : list A) (page perPage : Z) :
  0 < perPage -> 1 <= page ->
  currentPageItems l page perPage
  = firstn (Z.to_nat perPage)
      (skipn (Z.to_nat (page - 1) * Z.to_nat perPage) l).
Proof.
  intros Hp H1. unfold currentPageItems. cbv zeta.
  rewrite slice_nonneg by nia.
  f_equal; [f_equal; lia|]. f_equal. nia.
Qed.

(** X17. A page never has more than [perPage] rows; every page from 1 to
    [totalPages] has at least one; every page after [totalPages] is
    empty, as is the page the component stays on when a filter shrinks the
    list below it. *)
Theorem currentPageItems_bounds {A : Type} (l : list A)
  (page perPage : Z) :
  0 < perPage -> 1 <= page ->
  Z.of_nat (List.length (currentPageItems l page perPage)) <= perPage
  /\ (page <= totalPages l perPage -> currentPageItems l page perPage <> [])
  /\ (totalPages l perPage < page -> currentPageItems l page perPage = []).
Proof.
  intros Hp H1. rewrite currentPageItems_chunk by assumption.
  unfold totalPages.
  set (len := List.length l).
  set (k := (Z.to_nat (page - 1) * Z.to_nat perPage)%nat).
  assert (K : Z.of_nat k = (page - 1) * perPage) by (unfold k; nia).
  split; [rewrite length_firstn; lia|]. split.
  - intros T.
    assert (B : page * perPage <= Z.of_nat len + perPage - 1).
    { pose proof (Z.mul_div_le (Z.of_nat len + perPage - 1) perPage Hp). nia. }
    assert (Lt : (k < len)%nat) by nia.
    intros E. apply (f_equal (@List.length A)) in E.
    rewrite length_firstn, length_skipn in E. simpl in E. unfold len in *. lia.
  - intros T.
    assert (B : Z.of_nat len + perPage - 1 < page * perPage).
    { pose proof (Z.mul_succ_div_gt (Z.of_nat len + perPage - 1) perPage Hp).
      nia. }
    rewrite skipn_all2 by (unfold len in *; nia). apply firstn_nil.
Qed.

Lemma currentPageItems_bounds_witness :
  Z.of_nat (List.length (currentPageItems [1; 2; 3; 4; 5] 2 2)) <= 2
  /\ (2 <= totalPages [1; 2; 3; 4; 5] 2 ->
        currentPageItems [1; 2; 3; 4; 5] 2 2 <> [])
  /\ (totalPages [1; 2; 3; 4; 5] 2 < 2 ->
        currentPageItems [1; 2; 3; 4; 5] 2 2 = []).
Proof. apply currentPageItems_bounds; lia. Defined.

Lemma firstn_add_skipn {A : Type} (a b : nat) (l : list A) :
  firstn (a + b) l = (firstn a l ++ firstn b (skipn a l))%list.
Proof.
  revert l; induction a as [|a IH]; intros l; [reflexivity|].
  destruct l as [|x l]; simpl.
  - now rewrite firstn_nil.
  - now rewrite IH.
Qed.

Lemma chunks_concat {A : Type} (n m : nat) (l : list A) :
  List.concat (map (fun i => firstn n (skipn (i * n) l)) (seq 0 m))
  = firstn (m * n) l.
Proof.
  induction m as [|m IH]; [reflexivity|].
  rewrite seq_S, map_app, concat_app, IH. cbn [map List.concat Nat.add].
  rewrite app_nil_r, <- firstn_add_skipn. f_equal. lia.
Qed.

(** X18. The pages 1 .. [totalPages], one after the other, are the whole
    list: paging loses no row, repeats none and keeps the order. *)
Theorem pages_partition {A : Type} (l : list A) (perPage : Z) :
  0 < perPage ->
  List.concat (map (fun page => currentPageItems l page perPage)
            (pageNumbers (totalPages l perPage)))
  = l.
Proof.
  intros Hp. unfold pageNumbers. rewrite map_map.
  rewrite (map_ext _ (fun i => firstn (Z.to_nat perPage)
                                 (skipn (i * Z.to_nat perPage) l))).
  - rewrite chunks_concat. apply firstn_all2.
    unfold totalPages.
    pose proof (Z.mul_succ_div_gt
                  (Z.of_nat (List.length l) + perPage - 1) perPage Hp).
    assert (0 <= (Z.of_nat (List.length l) + perPage - 1) / perPage)
      by (apply Z.div_pos; lia).
    nia.
  - intros i. rewrite currentPageItems_chunk by lia.
    do 3 f_equal. lia.
Qed.

Lemma pages_partition_witness :
  List.concat (map (fun page => currentPageItems [1; 2; 3; 4; 5] page 2)
            (pageNumbers (totalPages [1; 2; 3; 4; 5] 2)))
  = [1; 2; 3; 4; 5].
Proof. apply pages_partition. lia. Defined.

(** ** Selecting jurisdictions *)

Lemma existsb_eqb_In (x : string) (l : list string) :
  existsb (String.eqb x) l = true <-> In x l.
Proof.
  rewrite existsb_exists. split.
  - intros (y & I & E). apply String.eqb_eq in E. now subst.
  - intros I. exists x. split; [exact I | apply String.eqb_refl].
Qed.

Lemma toggle_In (j x : string) (prev : list string) :
  In x (handleJurisdictionToggle j prev)
  <-> (x = j /\ ~ In j prev) \/ (x <> j /\ In x prev).
Proof.
  unfold handleJurisdictionToggle.
  destruct (existsb (String.eqb j) prev) eqn:E.
  - apply existsb_eqb_In in E. rewrite filter_In, negb_true_iff, String.eqb_neq.
    split; [intros [I N]; right; auto | intros [[-> N]|[N I]]; tauto].
  - assert (N : ~ In j prev)
      by (intros I; apply existsb_eqb_In in I; congruence).
    rewrite in_app_iff. cbn [In]. split.
    + intros [I|[<-|[]]]; [right; split; [congruence | exact I] | left; auto].
    + intros [[-> _]|[_ I]]; auto.
Qed.


(** X19. Toggling a jurisdiction flips its membership in the selection and
    nothing else: afterwards it is selected exactly if it was not, and every
    other jurisdiction is selected exactly if it was. A jurisdiction that was
    selected several times is deselected in one go. *)
Theorem handleJurisdictionToggle_membership (jurisdictionId x : string)
  (prev : list string) :
  In x (handleJurisdictionToggle jurisdictionId prev)
  <-> (x = jurisdictionId /\ ~ In jurisdictionId prev)
      \/ (x <> jurisdictionId /\ In x prev).
Proof. apply toggle_In. Qed.



(** ** Submitting a policy *)

(** X21. The policy form calls onSubmit exactly when name, description
    and category are filled in and at least one jurisdiction is selected;
    the policy it passes is the form state with the selection as its
    applicable jurisdictions, whatever the form state held there.
    Otherwise its only call is the error notification. *)
Theorem policyHandleSubmit_guarded (formState : CompliancePolicy)
  (selectedJurisdictions : list string) :
  let calls := policyHandleSubmit formState selectedJurisdictions in
  ((exists p, In (PolicyOnSubmit p) calls)
   <-> (pol_name formState <> "" /\ pol_description formState <> ""
        /\ category formState <> "" /\ selectedJurisdictions <> []))
  /\ (forall p, In (PolicyOnSubmit p) calls ->
        applicableJurisdictions p = selectedJurisdictions
        /\ applicableJurisdictions p <> []
        /\ mkCompliancePolicy (pol_id p) (pol_name p) (pol_description p)
             (category p) (pol_version p) (effectiveDate p)
             (pol_reviewDate p) (pol_documents p)
             (applicableJurisdictions formState) (responsibleDepartment p)
             (pol_status p) (lastUpdatedBy p) (lastUpdateDate p)
             (relatedLicenses p)
           = formState)
  /\ ((forall p, ~ In (PolicyOnSubmit p) calls) ->
        calls
        = [PolicyShowNotification
             "Please fill in all required policy fields and select at least one jurisdiction."
             "error"]).
Proof.
  cbv zeta. unfold policyHandleSubmit, nonEmpty.
  destruct (String.eqb_spec (pol_name formState) "") as [N|N];
    destruct (String.eqb_spec (pol_description formState) "") as [D|D];
    destruct (String.eqb_spec (category formState) "") as [C|C];
    destruct selectedJurisdictions as [|j js]; cbn [negb orb List.length Nat.eqb].
  16: { split; [|split].
        - split; [intros _; repeat split; (assumption || discriminate)|].
          intros _. eexists. left. reflexivity.
        - intros p [H|[]]. injection H as <-. cbn.
          split; [reflexivity|]. split; [discriminate|].
          destruct formState; reflexivity.
        - intros H. exfalso. eapply H. left. reflexivity. }
  all: split; [split; [intros [p [H|[]]]; discriminate H
                      | intros (? & ? & ? & ?); congruence]|];
       split; [intros p [H|[]]; discriminate H | reflexivity].
Qed.

(** ** Formatting a date *)

Lemma in_range (lo n z : Z) :
  lo <= z < lo + n ->
  In z (map (fun i => lo + Z.of_nat i) (seq 0 (Z.to_nat n))).
Proof.
  intros H. apply in_map_iff. exists (Z.to_nat (z - lo)).
  split; [lia | apply in_seq; lia].
Qed.

Lemma four_digit_years (y : Z) :
  1000 <= y <= 9999 ->
  String.length (numberToString y) = 4%nat
  /\ readDecimal (numberToString y) = Some y.
Proof.
  intros H.
  assert (A : forallb
                (fun y => (String.length (numberToString y) =? 4)%nat
                          && match readDecimal (numberToString y) with
                             | Some y' => y' =? y
                             | None => false
                             end)
                (map (fun i => 1000 + Z.of_nat i) (seq 0 (Z.to_nat 9000)))
              = true)
    by (vm_compute; reflexivity).
  rewrite forallb_forall in A.
  specialize (A y (in_range 1000 9000 y ltac:(lia))).
  apply andb_prop in A as [L R]. apply Nat.eqb_eq in L.
  split; [exact L|].
  destruct (readDecimal (numberToString y)) as [y'|]; [|discriminate].
  apply Z.eqb_eq in R. now subst.
Qed.

Lemma two_digit_fields (n : Z) :
  1 <= n <= 31 ->
  String.length (padStart0 (numberToString n) 2) = 2%nat
  /\ readDecimal (padStart0 (numberToString n) 2) = Some n.
Proof.
  intros H.
  assert (A : forallb
                (fun n => (String.length (padStart0 (numberToString n) 2)
                           =? 2)%nat
                          && match readDecimal
                                     (padStart0 (numberToString n) 2) with
                             | Some n' => n' =? n
                             | None => false
                             end)
                (map (fun i => 1 + Z.of_nat i) (seq 0 (Z.to_nat 31)))
              = true)
    by (vm_compute; reflexivity).
  rewrite forallb_forall in A.
  specialize (A n (in_range 1 31 n ltac:(lia))).
  apply andb_prop in A as [L R]. apply Nat.eqb_eq in L.
  split; [exact L|].
  destruct (readDecimal (padStart0 (numberToString n) 2)) as [n'|];
    [|discriminate].
  apply Z.eqb_eq in R. now subst.
Qed.

Lemma length_two (s : string) :
  String.length s = 2%nat ->
  exists a b, s = String a (String b EmptyString).
Proof.
  destruct s as [|a [|b [|c s]]]; try discriminate. eauto.
Qed.

Lemma length_four (s : string) :
  String.length s = 4%nat ->
  exists a b c d,
    s = String a (String b (String c (String d EmptyString))).
Proof.
  destruct s as [|a [|b [|c [|d [|e s]]]]]; try discriminate. eauto 6.
Qed.

(** X22. For a valid date with a four-digit year, the 'yyyy-MM-dd' format
    is the ten-character value of a date input: four digits, a hyphen, two
    digits, a hyphen, two digits, which read back as the year, the month
    counted from 1 and the day of the date. *)
Theorem format_iso_round_trip (date : DateFields) (localeDateString : string) :
  1000 <= getFullYear date <= 9999 ->
  0 <= getMonth date <= 11 ->
  1 <= getDate date <= 31 ->
  readIsoDate (format (Some date) "yyyy-MM-dd" localeDateString)
  = Some (getFullYear date, getMonth date + 1, getDate date).
Proof.
  intros Hy Hm Hd. unfold format. cbv zeta.
  rewrite String.eqb_refl.
  destruct (four_digit_years _ Hy) as [Ly Ry].
  destruct (two_digit_fields (getMonth date + 1) ltac:(lia)) as [Lm Rm].
  destruct (two_digit_fields (getDate date) ltac:(lia)) as [Ld Rd].
  destruct (length_four _ Ly) as (a & b & c & d & Ey).
  destruct (length_two _ Lm) as (e & f & Em).
  destruct (length_two _ Ld) as (g & h & Ed).
  rewrite Ey in *. rewrite Em in *. rewrite Ed in *.
  unfold readIsoDate. cbn [String.append String.substring String.length].
  rewrite Ry, Rm, Rd. reflexivity.
Qed.

Lemma format_iso_round_trip_witness :
  readIsoDate
    (format (Some (mkDateFields 2026 10 2 9 5)) "yyyy-MM-dd" "11/2/2026")
  = Some (2026, 11, 2).
Proof.
  apply (format_iso_round_trip (mkDateFields 2026 10 2 9 5) "11/2/2026");
    cbn; lia.
Defined.
